(** * PyRCM: ports, proxies and proxy-selection policies

    A shallow embedding of [b3j0f/rcm/io/policy/base.py] (the reference
    policies), of [b3j0f/rcm/binding/port.py] ([Port] and [ProxySet]) and
    of [b3j0f/rcm/controller/impl.py] (the implementation controller),
    followed by the properties established about them.  The code is
    modelled as it is written: where a method reads an attribute that no
    code sets, the model raises as the interpreter does. *)

From Stdlib Require Import ZArith List Ascii String Bool Lia.
From stdpp Require Import base option list gmap.
Import ListNotations.
Set Warnings "-register-all".
Local Open Scope string_scope.
Local Open Scope Z_scope.
Local Open Scope list_scope.

(** ** Python sequences *)

(** Bound of a slice [s[lo:hi]] over a sequence of length [n]: a negative
    bound counts from the end, and every bound is clamped to [0..n]. *)
Definition slice_bound (n i : Z) : Z :=
  if i <? 0 then Z.max (i + n) 0 else Z.min i n.

(** [s[lo:hi]] *)
Definition py_slice {A : Type} (s : list A) (lo hi : Z) : list A :=
  let n := Z.of_nat (length s) in
  let a := slice_bound n lo in
  let b := slice_bound n hi in
  firstn (Z.to_nat (b - a)) (skipn (Z.to_nat a) s).

(** [s[i]]: [None] stands for Python's IndexError. *)
Definition py_index {A : Type} (s : list A) (i : Z) : option A :=
  let n := Z.of_nat (length s) in
  if (0 <=? i) && (i <? n) then nth_error s (Z.to_nat i)
  else if (- n <=? i) && (i <? 0) then nth_error s (Z.to_nat (i + n))
  else None.

(** [sys.maxsize] on a 64-bit interpreter. *)
Definition maxsize : Z := 2 ^ 63 - 1.

(** A Python [dict] with string keys, in insertion order. *)
Definition dict (V : Type) : Type := list (string * V).

Fixpoint dict_get {V : Type} (d : dict V) (k : string) : option V :=
  match d with
  | [] => None
  | (k', v) :: d' => if String.eqb k' k then Some v else dict_get d' k
  end.

(** [d[k] = v]: an existing key keeps its position. *)
Fixpoint dict_set {V : Type} (d : dict V) (k : string) (v : V) : dict V :=
  match d with
  | [] => [(k, v)]
  | (k', v') :: d' =>
      if String.eqb k' k then (k, v) :: d' else (k', v') :: dict_set d' k v
  end.

(** ** Values *)

(** Identity of an object. *)
Definition oid : Type := nat.

Inductive value : Type :=
| VNone
| VBool (b : bool)
| VInt (z : Z)
| VStr (s : string)
| VList (xs : list value)
    (** a plain [list] *)
| VTuple (xs : list value)
| VDict (d : list (string * value))
| VPolicyResultSet (xs : list value)
    (** a [PolicyResultSet]: the tagged sequence policies act on *)
| VObj (o : oid)
    (** a component, resource, port or policy object of the store *)
| VBackend (o : oid) (routines : list (string * value))
    (** a business object; calling routine [r] returns [routines[r]] *)
| VProxy (o : oid) (elt : value) (_dict : list (string * value))
    (** the object made by [get_proxy(elt, bases, _dict)] *)
| VInstance (o : oid) (_dict : list (string * value))
    (** an instance of the class made by [type('Proxy', bases, _dict)] *)
| VMethodProxy (port : oid) (r_name : string) (proxies : value)
               (selectpolicy execpolicy respolicy : option oid)
    (** the closure [method_proxy] returned by [Port._method_proxy] *)
| VLambdaNone
    (** a lambda that takes any arguments and returns [None] *)
| VProxySet (elts : list value) (port : oid)
            (resources : list (string * value))
            (_resource_names_by_proxy : list (value * string)).
    (** a [ProxySet]: the tuple [elts] and its attributes *)

Definition is_PolicyResultSet (v : value) : bool :=
  match v with VPolicyResultSet _ => true | _ => false end.

Definition is_ProxySet (v : value) : bool :=
  match v with VProxySet _ _ _ _ => true | _ => false end.

(** Exceptions raised by the modelled code. *)
Inductive exn : Type :=
| PortError | CountError
| KeyError | IndexError | TypeError | AttributeError | RecursionError.

Inductive res (A : Type) : Type :=
| Ok (a : A)
| Raise (e : exn).
Arguments Ok {A} a.
Arguments Raise {A} e.

(** ** Policies ([b3j0f/rcm/io/policy/base.py]) *)

Module Policy.

(** Modelled from the spec: [Policy.__call__] is defined in
    [b3j0f.rcm.io.policy.core], which is not among the sources.  A policy
    acts on one designated parameter of its call; the base call hands that
    parameter back as it is ("All: returns the set unchanged", "any other
    value type must pass through completely unmodified"). *)
Definition Policy_call (param : value) : value := param.

(** [FirstPolicy.__call__] *)
Definition FirstPolicy_call (param : value) : value :=
  let result := Policy_call param in
  match result with
  | VPolicyResultSet xs =>
      match xs with
      | x :: _ => x
      | [] => VNone
      end
  | _ => result
  end.

(** [AllPolicy] does not override [__call__]. *)
Definition AllPolicy_call (param : value) : value := Policy_call param.

(** Attributes of a [CountPolicy] ([CountPolicy.__init__]). *)
Record CountPolicy : Type := mkCountPolicy {
  inf : Z;
  sup : Z;
  random : bool
}.

(** [CountPolicy(inf=0, sup=maxsize, random=False)] with its defaults. *)
Definition CountPolicy_default : CountPolicy := mkCountPolicy 0 maxsize false.

(** [CountPolicy.__call__]; [shuffle] is the permutation drawn by
    [random.shuffle] at this call. *)
Definition CountPolicy_call (shuffle : list value -> list value)
    (self : CountPolicy) (param : value) : res value :=
  let result := Policy_call param in
  match result with
  | VPolicyResultSet xs =>
      let len_proxies := Z.of_nat (length xs) in
      if len_proxies <? inf self then Raise CountError
      else
        let result :=
          if random self
          then py_slice (shuffle xs) 0 (sup self - inf self)
          else py_slice xs (inf self) (sup self) in
        Ok (VPolicyResultSet result)
  | _ => Ok result
  end.

(** [RandomPolicy.__call__]; [choice] is the draw of [random.choice]. *)
Definition RandomPolicy_call (choice : list value -> value)
    (param : value) : value :=
  let result := Policy_call param in
  match result with
  | VPolicyResultSet xs =>
      match xs with
      | [] => VNone
      | _ :: _ => choice xs
      end
  | _ => result
  end.

(** Attributes of a [RoundaboutPolicy] ([RoundaboutPolicy.__init__]). *)
Record RoundaboutPolicy : Type := mkRoundaboutPolicy {
  index : Z
}.

Definition RoundaboutPolicy_init : RoundaboutPolicy := mkRoundaboutPolicy 0.

(** [RoundaboutPolicy.__call__]: the result together with the policy after
    the call. *)
Definition RoundaboutPolicy_call (self : RoundaboutPolicy) (param : value)
    : res value * RoundaboutPolicy :=
  let result := Policy_call param in
  match result with
  | VPolicyResultSet xs =>
      match xs with
      | _ :: _ =>
          let index0 := index self in
          let self' :=
            mkRoundaboutPolicy ((index self + 1) mod Z.of_nat (length xs)) in
          match py_index xs index0 with
          | Some x => (Ok x, self')
          | None => (Raise IndexError, self')
          end
      | [] => (Ok VNone, self)
      end
  | _ => (Ok result, self)
  end.

(** The five reference policies. *)
Inductive policy : Type :=
| First
| All
| Count (c : CountPolicy)
| Random
| Roundabout (r : RoundaboutPolicy).

(** Calling a policy object: its result and the object after the call. *)
Definition call (shuffle : list value -> list value)
    (choice : list value -> value) (p : policy) (param : value)
    : res value * policy :=
  match p with
  | First => (Ok (FirstPolicy_call param), p)
  | All => (Ok (AllPolicy_call param), p)
  | Count c => (CountPolicy_call shuffle c param, p)
  | Random => (Ok (RandomPolicy_call choice param), p)
  | Roundabout r =>
      let '(result, r') := RoundaboutPolicy_call r param in
      (result, Roundabout r')
  end.

(** [n] successive calls of one [RoundaboutPolicy] on the same parameter:
    the results in call order and the policy afterwards. *)
Fixpoint RoundaboutPolicy_calls (n : nat) (self : RoundaboutPolicy)
    (param : value) : list (res value) * RoundaboutPolicy :=
  match n with
  | O => ([], self)
  | S n' =>
      let '(r, self') := RoundaboutPolicy_call self param in
      let '(rs, self'') := RoundaboutPolicy_calls n' self' param in
      (r :: rs, self'')
  end.

End Policy.

(** ** Components, resources and ports ([b3j0f/rcm/binding/port.py]) *)

(** Modelled from the spec: interface descriptors come from a module that is
    not among the sources.  A descriptor "resolves to a base type usable for
    proxy synthesis" ([py_class]); [public_routines] lists what
    [getmembers] finds on that class: the routines whose name does not
    start with an underscore. *)
Record Interface : Type := mkInterface {
  py_class : string;
  public_routines : list string
}.

(** Class of a store object: [Port] extends [Resource], which extends
    [Component]. *)
Inductive pyclass : Type := Component | Resource | Port.

Definition subclass_of_Resource (c : pyclass) : bool :=
  match c with Component => false | Resource | Port => true end.

Definition subclass_of_Port (c : pyclass) : bool :=
  match c with Port => true | _ => false end.

(** A policy argument of [Port.__init__]: [None], one callable, or a [dict]
    from routine names to callables.  Callables are policy objects of the
    store. *)
Inductive policy_conf : Type :=
| NoPolicy
| OnePolicy (p : oid)
| PolicyDict (d : dict oid).

(** Attributes of a component; those below [itfs] belong to resources and
    those below [_proxy] to ports. *)
Record component : Type := mkComponent {
  cls : pyclass;
  ports : dict value;
  itfs : list Interface;
  _bound_on : list (oid * list string);
  _proxy : value;
  _multiple : bool;
  _inf : Z;
  _sup : Z;
  _selectpolicy : policy_conf;
  _execpolicy : policy_conf;
  _resultpolicy : policy_conf
}.

Definition with_ports (c : component) (v : dict value) : component :=
  mkComponent (cls c) v (itfs c) (_bound_on c) (_proxy c) (_multiple c)
    (_inf c) (_sup c) (_selectpolicy c) (_execpolicy c) (_resultpolicy c).

Definition with_bound_on (c : component) (v : list (oid * list string))
    : component :=
  mkComponent (cls c) (ports c) (itfs c) v (_proxy c) (_multiple c)
    (_inf c) (_sup c) (_selectpolicy c) (_execpolicy c) (_resultpolicy c).

Definition with_multiple (c : component) (v : bool) : component :=
  mkComponent (cls c) (ports c) (itfs c) (_bound_on c) (_proxy c) v
    (_inf c) (_sup c) (_selectpolicy c) (_execpolicy c) (_resultpolicy c).

(** Objects of the store: components, and policy objects together with the
    name of the call parameter they act on. *)
Inductive object : Type :=
| OComponent (c : component)
| OPolicy (name : string) (p : Policy.policy).

(** The shared store: objects by identity, and the next unused identity. *)
Record store : Type := mkStore {
  heap : gmap oid object;
  next : oid
}.

(** Computations over the store that may raise; what was written before a
    raise stays written. *)
Definition M (A : Type) : Type := store -> res A * store.

Definition ret {A : Type} (a : A) : M A := fun s => (Ok a, s).

Definition raise {A : Type} (e : exn) : M A := fun s => (Raise e, s).

Definition bind {A B : Type} (m : M A) (k : A -> M B) : M B :=
  fun s =>
    match m s with
    | (Ok a, s') => k a s'
    | (Raise e, s') => (Raise e, s')
    end.

Declare Scope py_scope.
Delimit Scope py_scope with py.
Notation "x <- m ;; k" := (bind m (fun x => k))
  (at level 100, m at next level, k at level 200, right associativity)
  : py_scope.
Notation "m ;; k" := (bind m (fun _ => k))
  (at level 100, k at level 200, right associativity) : py_scope.
Local Open Scope py_scope.

Definition get_component (o : oid) : M component :=
  fun s =>
    match heap s !! o with
    | Some (OComponent c) => (Ok c, s)
    | _ => (Raise AttributeError, s)
    end.

Definition put_component (o : oid) (c : component) : M unit :=
  fun s => (Ok tt, mkStore (<[o := OComponent c]> (heap s)) (next s)).

Definition modify_component (o : oid) (f : component -> component) : M unit :=
  c <- get_component o ;; put_component o (f c).

(** A new object identity. *)
Definition fresh : M oid :=
  fun s => (Ok (next s), mkStore (heap s) (S (next s))).

Fixpoint map_each {A B : Type} (xs : list A) (body : A -> M B)
    : M (list B) :=
  match xs with
  | [] => ret []
  | x :: xs' => y <- body x ;; ys <- map_each xs' body ;; ret (y :: ys)
  end.

(** [isinstance(v, Resource)] *)
Definition isinstance_Resource (v : value) : M bool :=
  fun s =>
    match v with
    | VObj o =>
        match heap s !! o with
        | Some (OComponent c) => (Ok (subclass_of_Resource (cls c)), s)
        | _ => (Ok false, s)
        end
    | _ => (Ok false, s)
    end.

(** [isinstance(component, Port)] *)
Definition isinstance_Port (o : oid) : M bool :=
  fun s =>
    match heap s !! o with
    | Some (OComponent c) => (Ok (subclass_of_Port (cls c)), s)
    | _ => (Ok false, s)
    end.

(** Identity of a value, for values that are objects. *)
Definition value_id (v : value) : option oid :=
  match v with
  | VObj o | VBackend o _ | VProxy o _ _ | VInstance o _ => Some o
  | _ => None
  end.

(** [for x in v]: the elements of an iterable value.  A string gives its
    characters and a [dict] its keys; a component is used as a [dict] of
    its ports by name, and gives their names. *)
Definition iterate (v : value) : M (list value) :=
  match v with
  | VList xs | VTuple xs | VPolicyResultSet xs => ret xs
  | VProxySet elts _ _ _ => ret elts
  | VStr s =>
      ret (map (fun c => VStr (String c "")) (list_ascii_of_string s))
  | VDict d => ret (map (fun entry => VStr (fst entry)) d)
  | VObj o =>
      fun s =>
        match heap s !! o with
        | Some (OComponent c) =>
            (Ok (map (fun entry => VStr (fst entry)) (ports c)), s)
        | _ => (Raise TypeError, s)
        end
  | _ => raise TypeError
  end.

(** Back-reference tables: [_bound_on[component]] is the set of names under
    which [component] binds the resource. *)
Fixpoint bound_on_add (b : list (oid * list string)) (component : oid)
    (name : string) : list (oid * list string) :=
  match b with
  | [] => [(component, [name])]
  | (c, names) :: b' =>
      if Nat.eqb c component
      then (c, if existsb (String.eqb name) names then names
               else names ++ [name]) :: b'
      else (c, names) :: bound_on_add b' component name
  end.

Fixpoint bound_on_remove (b : list (oid * list string)) (component : oid)
    (name : string) : list (oid * list string) :=
  match b with
  | [] => []
  | (c, names) :: b' =>
      if Nat.eqb c component
      then match List.filter (fun n => negb (String.eqb n name)) names with
           | [] => b'
           | names' => (c, names') :: b'
           end
      else (c, names) :: bound_on_remove b' component name
  end.

(** Rewrites the back-reference table of [v] when [v] is a component of the
    store, and does nothing otherwise. *)
Definition update_bound_on (v : value)
    (f : list (oid * list string) -> list (oid * list string)) : M unit :=
  fun s =>
    match v with
    | VObj o =>
        match heap s !! o with
        | Some (OComponent c) =>
            put_component o (with_bound_on c (f (_bound_on c))) s
        | _ => (Ok tt, s)
        end
    | _ => (Ok tt, s)
    end.

(** Modelled from the spec: [Component.set_port] belongs to
    [b3j0f.rcm.core], which is not among the sources.  It "binds [resource]
    under [name], replacing any prior binding", "removes the previous binding
    under [name] if present (with its own teardown), installs the new
    binding" and returns "the [(name, previous binding)] pair"; the
    back-reference table of a bound component records "which other ports
    have bound this port under which name(s)". *)
Definition Component_set_port (self : oid) (port : value) (name : string)
    : M (string * value) :=
  c <- get_component self ;;
  let old_port := default VNone (dict_get (ports c) name) in
  update_bound_on old_port (fun b => bound_on_remove b self name) ;;
  modify_component self (fun c => with_ports c (dict_set (ports c) name port)) ;;
  update_bound_on port (fun b => bound_on_add b self name) ;;
  ret (name, old_port).

(** Modelled from the spec: [component[name]] of [b3j0f.rcm.core]; a
    component "supports named child lookup". *)
Definition Component_getitem (v : value) (name : string) : M value :=
  match v with
  | VObj o =>
      c <- get_component o ;;
      match dict_get (ports c) name with
      | Some child => ret child
      | None => raise KeyError
      end
  | _ => raise TypeError
  end.

(** Modelled from the spec: [Component.get_ports(types=Resource)], "the
    live, filtered view of bound children that are resources", in binding
    order. *)
Fixpoint get_ports_Resource (children : dict value) : M (dict value) :=
  match children with
  | [] => ret []
  | (name, child) :: rest =>
      is_resource <- isinstance_Resource child ;;
      others <- get_ports_Resource rest ;;
      ret (if is_resource then (name, child) :: others else others)
  end.

(** [Port.resources] *)
Definition Port_resources (self : oid) : M (dict value) :=
  c <- get_component self ;;
  get_ports_Resource (ports c).

(** Modelled from the spec: [_remove_resource] and [_add_resource] are
    called by [Port.set_port] and defined nowhere in the sources; the spec
    lists no effect of [set_port] beside the rebinding, the regeneration of
    the proxy and its propagation, so both leave the store as it is. *)
Definition Port__remove_resource (self : oid) (name : string)
    (resource : value) : M unit := ret tt.

Definition Port__add_resource (self : oid) (name : string)
    (resource : value) : M unit := ret tt.

(** [get_proxy(elt=..., bases=..., _dict=...)] of [b3j0f.utils.proxy]: a new
    object standing for [elt], with the routines of [_dict] on top. *)
Definition get_proxy (elt : value) (_dict : dict value) : M value :=
  o <- fresh ;; ret (VProxy o elt _dict).

(** [ProxySet.__init__]: the loop over [resources], which fills
    [_resource_names_by_proxy].  The source reads [resource[name]], wraps a
    single proxy in a tuple under the same variable [proxy], and hands
    [proxy], not the element [p], to [get_proxy]; every key is a new
    object, so every assignment adds an entry. *)
Fixpoint ProxySet_fill (resources : dict value)
    (_resource_names_by_proxy : list (value * string))
    : M (list (value * string)) :=
  match resources with
  | [] => ret _resource_names_by_proxy
  | (name, resource) :: rest =>
      proxy <- Component_getitem resource name ;;
      let proxy := if is_ProxySet proxy then proxy else VTuple [proxy] in
      ps <- iterate proxy ;;
      new_entries <-
        map_each ps (fun p =>
          new_proxy <- get_proxy proxy [] ;;
          ret (new_proxy, name)) ;;
      ProxySet_fill rest (_resource_names_by_proxy ++ new_entries)
  end.

(** [ProxySet(port=..., resources=..., bases=...)].  [ProxySet] extends
    [tuple] and defines no [__new__], and it is given keywords only: the
    tuple is made without elements before [__init__] runs.  [__init__]
    fills [_resource_names_by_proxy] and ends in the [__init__] of [object]
    called with the keys, which takes no argument and raises [TypeError]:
    the call never returns a [ProxySet]. *)
Definition ProxySet_init (port : oid) (resources : dict value) : M value :=
  _resource_names_by_proxy <- ProxySet_fill resources [] ;;
  raise TypeError.

Fixpoint names_by_proxy_get (d : list (value * string)) (k : oid)
    : option string :=
  match d with
  | [] => None
  | (p, name) :: d' =>
      match value_id p with
      | Some o => if Nat.eqb o k then Some name else names_by_proxy_get d' k
      | None => names_by_proxy_get d' k
      end
  end.

(** [ProxySet.get_resource_name]: proxies are looked up by identity. *)
Definition ProxySet_get_resource_name (self : value) (proxy : value)
    : res string :=
  match self with
  | VProxySet _ _ _ d =>
      match value_id proxy with
      | Some o =>
          match names_by_proxy_get d o with
          | Some name => Ok name
          | None => Raise KeyError
          end
      | None => Raise KeyError
      end
  | _ => Raise AttributeError
  end.

(** The instance attributes of a port: those [Port.__init__] sets. *)
Definition Port_attributes : list string :=
  ["_multiple"; "_inf"; "_sup"; "_selectpolicy"; "_execpolicy";
   "_resultpolicy"; "_proxy"].

(** [self.name] for an instance attribute of a port: [read] gives its
    value, and the access raises [AttributeError] when [Port.__init__] sets
    no attribute of that name. *)
Definition Port_getattr {A : Type} (name : string) (read : component -> A)
    (self : oid) : M A :=
  c <- get_component self ;;
  if existsb (String.eqb name) Port_attributes then ret (read c)
  else raise AttributeError.

Section Port.

(** [resource_itf.is_sub_itf(self_itf)]: the sub-interface test of the
    interface descriptors. *)
Variable is_sub_itf : Interface -> Interface -> bool.

(** The draws of [random.shuffle] and [random.choice]. *)
Variable shuffle : list value -> list value.
Variable choice : list value -> value.

(** [Port.check_res], inner loop: [result] after the loop over [self.itfs];
    a failed test leaves this loop. *)
Fixpoint check_res_self_itfs (resource_itf : Interface)
    (self_itfs : list Interface) (result : bool) : bool :=
  match self_itfs with
  | [] => result
  | self_itf :: rest =>
      let result := is_sub_itf resource_itf self_itf in
      if negb result then result
      else check_res_self_itfs resource_itf rest result
  end.

(** [Port.check_res], outer loop over [resource.itfs]. *)
Fixpoint check_res_resource_itfs (resource_itfs self_itfs : list Interface)
    (result : bool) : bool :=
  match resource_itfs with
  | [] => result
  | resource_itf :: rest =>
      check_res_resource_itfs rest self_itfs
        (check_res_self_itfs resource_itf self_itfs result)
  end.

(** [Port.check_res] on the interfaces of the port and of the resource. *)
Definition check_res (self_itfs resource_itfs : list Interface) : bool :=
  check_res_resource_itfs resource_itfs self_itfs true.

(** What the docstring and the spec ask of [check_res]: every interface of
    the resource is a sub-interface of every interface of the port. *)
Definition all_sub_itfs (self_itfs resource_itfs : list Interface) : bool :=
  forallb (fun resource_itf =>
    forallb (fun self_itf => is_sub_itf resource_itf self_itf) self_itfs)
    resource_itfs.

(** [self.check_res(resource=port)] on objects of the store. *)
Definition Port_check_res (self : oid) (resource : value) : M bool :=
  match resource with
  | VObj o =>
      r <- get_component o ;;
      c <- get_component self ;;
      ret (check_res (itfs c) (itfs r))
  | _ => raise AttributeError
  end.

(** Modelled from the spec: calling a policy object.  The policy classes
    take the name of the parameter they act on (the tests call a policy
    with that one keyword argument); the object is updated with what the
    call left in it. *)
Definition call_policy (p : oid) (kwargs : dict value) : M value :=
  fun s =>
    match heap s !! p with
    | Some (OPolicy name pol) =>
        match dict_get kwargs name with
        | Some param =>
            let '(result, pol') := Policy.call shuffle choice pol param in
            let s' := mkStore (<[p := OPolicy name pol']> (heap s)) (next s) in
            match result with
            | Ok v => (Ok v, s')
            | Raise e => (Raise e, s')
            end
        | None => (Raise KeyError, s)
        end
    | _ => (Raise TypeError, s)
    end.

(** The policy of routine [r_name] in a policy argument: the entry of a
    [dict], the argument itself otherwise. *)
Definition policy_for (conf : policy_conf) (r_name : string) : option oid :=
  match conf with
  | NoPolicy => None
  | OnePolicy p => Some p
  | PolicyDict d => dict_get d r_name
  end.

(** [Port._method_proxy], up to the closure it returns.  The policies of
    routine [r_name] are chosen before the closure is made; the third one
    is read from [self._respolicy], while [Port.__init__] stores its
    [respolicy] argument as [_resultpolicy]. *)
Definition Port__method_proxy (self : oid) (r_name : string) (proxies : value)
    : M value :=
  selectpolicy <- Port_getattr "_selectpolicy" _selectpolicy self ;;
  execpolicy <- Port_getattr "_execpolicy" _execpolicy self ;;
  respolicy <- Port_getattr "_respolicy" _resultpolicy self ;;
  ret (VMethodProxy self r_name proxies
         (policy_for selectpolicy r_name)
         (policy_for execpolicy r_name)
         (policy_for respolicy r_name)).

(** The last stage of [method_proxy] when no result policy is set. *)
Definition default_result (results : value) : value :=
  match results with
  | VPolicyResultSet (_ :: _) => VList [VInt 0]
  | _ => results
  end.

(** [Port._renew_proxy].  Its first statement takes
    [self.resources[self.inf:self.sup]]: the resources are read, then
    [self.inf] and [self.sup], while [Port.__init__] sets [_inf] and
    [_sup]; and [self.resources] is a [dict], which takes no slice.  The
    statement raises on every path, so the rest of the body (the
    construction of the proxy and the propagation to the ports of
    [_bound_on]) never runs. *)
Definition Port__renew_proxy (self : oid) : M unit :=
  all_resources <- Port_resources self ;;
  inf <- Port_getattr "inf" _inf self ;;
  sup <- Port_getattr "sup" _sup self ;;
  raise TypeError.

(** [Port.set_port] *)
Definition Port_set_port (self : oid) (port : value) (name : string)
    : M (string * value) :=
  port_is_resource <- isinstance_Resource port ;;
  valid <- (if port_is_resource then Port_check_res self port
            else ret true) ;;
  if port_is_resource && negb valid then raise PortError
  else
    result <- Component_set_port self port name ;;
    let '(name, old_port) := result in
    old_is_resource <- isinstance_Resource old_port ;;
    (if old_is_resource
     then Port__remove_resource self name old_port else ret tt) ;;
    port_is_resource <- isinstance_Resource port ;;
    (if port_is_resource
     then Port__add_resource self name port else ret tt) ;;
    let change_of_resources := old_is_resource || port_is_resource in
    (if change_of_resources then Port__renew_proxy self else ret tt) ;;
    ret result.

(** [resource.proxy]: the [Port.proxy] property on a port, the attribute on
    any other resource. *)
Definition Resource_proxy (resource : value) : M value :=
  match resource with
  | VObj o =>
      c <- get_component o ;;
      if subclass_of_Port (cls c)
      then
        (match _proxy c with
         | VNone => Port__renew_proxy o
         | _ => ret tt
         end) ;;
        c <- get_component o ;;
        ret (_proxy c)
      else ret (_proxy c)
  | _ => raise AttributeError
  end.

(** The keyword arguments [Port] hands to its policies. *)
Definition policy_kwargs (self : oid) (proxies : value) (r_name : string)
    (proxy_instance : value) (args : list value) (kwargs : dict value)
    : dict value :=
  [("port", VObj self); ("proxies", proxies); ("routine", VStr r_name);
   ("instance", proxy_instance); ("args", VTuple args);
   ("kwargs", VDict kwargs)].

(** [method_proxy], the closure made by [Port._method_proxy], and the call
    of routine [r_name] of [proxy_to_run] with the arguments of the call.
    [depth] is the call depth Python still allows: when it is used up the
    interpreter raises its recursion error. *)
Fixpoint method_proxy (depth : nat) (self : oid) (r_name : string)
    (proxies : value) (selectpolicy execpolicy respolicy : option oid)
    (proxy_instance : value) (args : list value) (kwargs : dict value)
    {struct depth} : M value :=
  match depth with
  | O => raise RecursionError
  | S depth =>
      proxies_to_run <-
        match selectpolicy with
        | None => ret proxies
        | Some p =>
            call_policy p
              (policy_kwargs self proxies r_name proxy_instance args kwargs)
        end ;;
      results <-
        match execpolicy with
        | None =>
            to_run <- iterate proxies_to_run ;;
            results <-
              map_each to_run (fun proxy_to_run =>
                call_routine depth proxy_to_run r_name args kwargs) ;;
            ret (VList results)
        | Some p =>
            call_policy p
              (policy_kwargs self proxies_to_run r_name proxy_instance
                 args kwargs)
        end ;;
      match respolicy with
      | None => ret (default_result results)
      | Some p =>
          call_policy p
            (policy_kwargs self proxies r_name proxy_instance args kwargs
               ++ [("results", results)])
      end
  end

with call_routine (depth : nat) (target : value) (r_name : string)
    (args : list value) (kwargs : dict value) {struct depth} : M value :=
  match depth with
  | O => raise RecursionError
  | S depth =>
      let call_member (member : value) : M value :=
        match member with
        | VMethodProxy port r_name proxies selectpolicy execpolicy respolicy =>
            method_proxy depth port r_name proxies
              selectpolicy execpolicy respolicy target args kwargs
        | VLambdaNone => ret VNone
        | _ => raise TypeError
        end in
      match target with
      | VBackend _ routines =>
          match dict_get routines r_name with
          | Some result => ret result
          | None => raise AttributeError
          end
      | VProxy _ elt _dict =>
          match dict_get _dict r_name with
          | Some member => call_member member
          | None => call_routine depth elt r_name args kwargs
          end
      | VInstance _ _dict =>
          match dict_get _dict r_name with
          | Some member => call_member member
          | None => raise AttributeError
          end
      | _ => raise AttributeError
      end
  end.

(** The [Port.proxy] property. *)
Definition Port_proxy (self : oid) : M value :=
  Resource_proxy (VObj self).

(** The setter of [Port.multiple]. *)
Definition Port_multiple_setter (self : oid) (value : bool) : M unit :=
  c <- get_component self ;;
  if negb (Bool.eqb value (_multiple c))
  then
    modify_component self (fun c => with_multiple c (negb (_multiple c))) ;;
    Port__renew_proxy self
  else ret tt.

(** The setter of [Port.itfs]: it assigns [super(Port, self).itfs], and a
    [super] object takes no assignment of an attribute, so the call raises
    before anything is stored and before [_renew_proxy]. *)
Definition Port_itfs_setter (self : oid) (value : list Interface) : M unit :=
  raise AttributeError.

End Port.

(** ** Building stores *)

Definition empty_store : store := mkStore ∅ 0%nat.

(** A new object of the store. *)
Definition new_object (obj : object) : M oid :=
  fun s => (Ok (next s), mkStore (<[next s := obj]> (heap s)) (S (next s))).

(** [Port.__init__]: a port with no bound resource and no proxy yet. *)
Definition Port_init (multiple : bool) (inf sup : Z)
    (selectpolicy execpolicy respolicy : policy_conf)
    (itfs : list Interface) : M oid :=
  new_object (OComponent
    (mkComponent Port [] itfs [] VNone multiple inf sup
       selectpolicy execpolicy respolicy)).

(** [Port()] with the defaults of [Port.__init__]. *)
Definition Port_default (itfs : list Interface) : M oid :=
  Port_init true 0 maxsize NoPolicy NoPolicy NoPolicy itfs.

(** A resource that is not a port: its interfaces and its proxy. *)
Definition Resource_init (itfs : list Interface) (proxy : value) : M oid :=
  new_object (OComponent
    (mkComponent Resource [] itfs [] proxy true 0 maxsize
       NoPolicy NoPolicy NoPolicy)).

(** A policy object acting on the parameter [name]. *)
Definition policy_init (name : string) (p : Policy.policy) : M oid :=
  new_object (OPolicy name p).

(** A business object whose routines return the given values. *)
Definition backend_init (routines : dict value) : M value :=
  o <- fresh ;; ret (VBackend o routines).

(** The [_proxy] attribute of a component of the store. *)
Definition proxy_of (s : store) (o : oid) : option value :=
  match heap s !! o with
  | Some (OComponent c) => Some (_proxy c)
  | _ => None
  end.

(** The [ports] attribute of a component of the store. *)
Definition ports_of (s : store) (o : oid) : option (dict value) :=
  match heap s !! o with
  | Some (OComponent c) => Some (ports c)
  | _ => None
  end.

(** ** Scenarios *)

(** The cardinality property as the specification words it, for
    [CountPolicy(inf=2, sup=4, random=False)]: between 2 and 4 candidates
    are all used, and of more than 4 the first 4 are used. *)
Definition cardinality_as_stated : Prop :=
  forall (shuffle : list value -> list value) (xs : list value),
    let policy := Policy.mkCountPolicy 2 4 false in
    (2 <= Z.of_nat (length xs) <= 4 ->
     Policy.CountPolicy_call shuffle policy (VPolicyResultSet xs)
     = Ok (VPolicyResultSet xs)) /\
    (4 < Z.of_nat (length xs) ->
     Policy.CountPolicy_call shuffle policy (VPolicyResultSet xs)
     = Ok (VPolicyResultSet (firstn 4 xs))).

Module Scenario.

(** Interfaces with one public routine [m]; an interface is a sub-interface
    of itself only. *)
Definition itf (name : string) : Interface := mkInterface name ["m"].

Definition same_class (a b : Interface) : bool :=
  String.eqb (py_class a) (py_class b).

Definition no_shuffle (xs : list value) : list value := xs.

Definition first_choice (xs : list value) : value := hd VNone xs.

(** The call depth left to the scenarios. *)
Definition depth : nat := 20.

(** A port with the default arguments and a resource with the interface of
    the port; nothing is bound.  Returns the port and the resource. *)
Definition default_port_and_resource : M (oid * oid) :=
  port <- Port_default [itf "A"] ;;
  backend <- backend_init [("m", VInt 1)] ;;
  resource <- Resource_init [itf "A"] backend ;;
  ret (port, resource).

(** A port requiring interface [B], and a resource providing [A] and [B].
    Returns the port and the resource. *)
Definition port_B_resource_AB : M (oid * oid) :=
  port <- Port_init false 0 maxsize NoPolicy NoPolicy NoPolicy [itf "B"] ;;
  backend <- backend_init [("m", VInt 1)] ;;
  resource <- Resource_init [itf "A"; itf "B"] backend ;;
  ret (port, resource).

(** A port requiring interface [A], a resource providing [A] and a resource
    providing [B] only; nothing is bound.  Returns the port and the second
    resource. *)
Definition port_A_resource_B : M (oid * oid) :=
  port <- Port_init false 0 maxsize NoPolicy NoPolicy NoPolicy [itf "A"] ;;
  backend <- backend_init [("m", VInt 1)] ;;
  good <- Resource_init [itf "A"] backend ;;
  backend' <- backend_init [("m", VInt 2)] ;;
  bad <- Resource_init [itf "B"] backend' ;;
  ret (port, bad).

(** The end-to-end scenario of the specification: a port with
    [multiple=False, sup=2], the given [inf] and no policy, bound to [X]
    (whose backend returns 1) and [Y] (whose backend returns 2); routine
    [m] is called on its proxy. *)
Definition call_X_Y (inf : Z) : M value :=
  port <- Port_init false inf 2 NoPolicy NoPolicy NoPolicy [itf "A"] ;;
  backend_x <- backend_init [("m", VInt 1)] ;;
  x <- Resource_init [itf "A"] backend_x ;;
  backend_y <- backend_init [("m", VInt 2)] ;;
  y <- Resource_init [itf "A"] backend_y ;;
  Port_set_port same_class port (VObj x) "X" ;;
  Port_set_port same_class port (VObj y) "Y" ;;
  proxy <- Port_proxy port ;;
  call_routine no_shuffle first_choice depth proxy "m" [] [].

(** The closure of [_method_proxy] for routine [m] with no selection
    policy, an execution policy that hands the candidate set back as the
    raw results ([AllPolicy] acting on [proxies]) and no result policy,
    called over the tagged candidates [5] and [7]. *)
Definition call_closure_tagged_results : M value :=
  exec <- policy_init "proxies" Policy.All ;;
  port <- Port_init false 0 2 NoPolicy (OnePolicy exec) NoPolicy [itf "A"] ;;
  method_proxy no_shuffle first_choice depth port "m"
    (VPolicyResultSet [VInt 5; VInt 7]) None (Some exec) None VNone [] [].

(** The same closure with no execution policy either, over two backends
    whose routine [m] returns 1 and 2. *)
Definition call_closure_no_policy : M value :=
  port <- Port_init false 0 2 NoPolicy NoPolicy NoPolicy [itf "A"] ;;
  backend_x <- backend_init [("m", VInt 1)] ;;
  backend_y <- backend_init [("m", VInt 2)] ;;
  method_proxy no_shuffle first_choice depth port "m"
    (VPolicyResultSet [backend_x; backend_y]) None None None VNone [] [].

(** Three resources for a [ProxySet]: [r1] is multi-valued with two
    backends, [r2] and [r3] are single-valued.  When [with_children] is
    set, every resource also binds a value under its own name. *)
Definition three_resources (with_children : bool) : M (dict value) :=
  b1 <- backend_init [("m", VInt 1)] ;;
  b2 <- backend_init [("m", VInt 2)] ;;
  b3 <- backend_init [("m", VInt 3)] ;;
  b4 <- backend_init [("m", VInt 4)] ;;
  r1 <- Resource_init [itf "A"] (VProxySet [b1; b2] 0%nat [] []) ;;
  r2 <- Resource_init [itf "A"] b3 ;;
  r3 <- Resource_init [itf "A"] b4 ;;
  (if with_children
   then
     Component_set_port r1 (VStr "child") "r1" ;;
     Component_set_port r2 (VStr "child") "r2" ;;
     Component_set_port r3 (VStr "child") "r3" ;;
     ret tt
   else ret tt) ;;
  ret [("r1", VObj r1); ("r2", VObj r2); ("r3", VObj r3)].

Definition ProxySet_over_three (with_children : bool) : M value :=
  resources <- three_resources with_children ;;
  port <- Port_default [itf "A"] ;;
  ProxySet_init port resources.

(** A component that is no resource. *)
Definition Component_init : M oid :=
  new_object (OComponent
    (mkComponent Component [] [] [] VNone true 0 maxsize
       NoPolicy NoPolicy NoPolicy)).

(** A port to which a component that is no resource is bound under the
    name [child], and a second such component.  Returns the port and the
    two components. *)
Definition port_with_child : M (oid * oid * oid) :=
  port <- Port_init false 0 maxsize NoPolicy NoPolicy NoPolicy [itf "A"] ;;
  first <- Component_init ;;
  second <- Component_init ;;
  Port_set_port same_class port (VObj first) "child" ;;
  ret (port, first, second).

End Scenario.

(** ** Reading the store *)

(** Whether a value is an instance of [Resource] in a store: the answer of
    [isinstance_Resource], as a function of the store. *)
Definition is_resource (s : store) (v : value) : bool :=
  match v with
  | VObj o =>
      match heap s !! o with
      | Some (OComponent c) => subclass_of_Resource (cls c)
      | _ => false
      end
  | _ => false
  end.

(** The class of a component of the store. *)
Definition class_of (s : store) (o : oid) : option pyclass :=
  match heap s !! o with
  | Some (OComponent c) => Some (cls c)
  | _ => None
  end.

(** The resources bound to a component, in binding order: what
    [Port.resources] returns. *)
Definition resources_of (s : store) (c : component) : dict value :=
  List.filter (fun binding => is_resource s (snd binding)) (ports c).

(** The value bound under [name] on a component, [None] when there is
    none: what [set_port] returns as the previous binding. *)
Definition bound_under (s : store) (self : oid) (name : string) : value :=
  match heap s !! self with
  | Some (OComponent c) => default VNone (dict_get (ports c) name)
  | _ => VNone
  end.

(** ** Runs of calls on ports *)

(** The calls a program makes on the ports of the store. *)
Inductive Port_call : Type :=
| call_set_port (self : oid) (port : value) (name : string)
| call_proxy (self : oid)
| call_multiple (self : oid) (value : bool)
| call_itfs (self : oid) (value : list Interface)
| call__renew_proxy (self : oid).

(** The store after a call, whether the call returns or raises. *)
Definition Port_step (is_sub_itf : Interface -> Interface -> bool)
    (s : store) (call : Port_call) : store :=
  match call with
  | call_set_port self port name =>
      snd (Port_set_port is_sub_itf self port name s)
  | call_proxy self => snd (Port_proxy self s)
  | call_multiple self value => snd (Port_multiple_setter self value s)
  | call_itfs self value => snd (Port_itfs_setter self value s)
  | call__renew_proxy self => snd (Port__renew_proxy self s)
  end.

(** The store after a sequence of calls, each made on the store the
    previous one left. *)
Definition Port_run (is_sub_itf : Interface -> Interface -> bool)
    (calls : list Port_call) (s : store) : store :=
  fold_left (Port_step is_sub_itf) calls s.

(** * The implementation controller ([b3j0f.rcm.controller.impl]) *)

Module Impl.

(** [_accessor_name(accessor, prefix)]: [name] is [accessor.__name__]; the
    prefix is dropped when the name starts with it, and one underscore
    after it. *)
Definition _accessor_name (name prefix : string) : string :=
  let result := name in
  if String.prefix prefix result
  then
    let result :=
      String.substring (String.length prefix)
        (String.length result - String.length prefix) result in
    match result with
    | String "_"%char rest => rest
    | _ => result
    end
  else result.

(** The values an implementation controller deals with: [None], a string
    (the path of a class), a class, and an object with its class. *)
Inductive pyvalue : Type :=
| PNone
| PStr (s : string)
| PClass (name : string)
| PObject (class_name : string) (state : dict pyvalue).

(** [value.__class__], by name. *)
Definition class_name (v : pyvalue) : string :=
  match v with
  | PNone => "NoneType"
  | PStr _ => "str"
  | PClass _ => "type"
  | PObject k _ => k
  end.

(** The slots [_cls] and [_impl] of a controller. *)
Record ImplController : Type := mkImplController {
  _cls : string;
  _impl : pyvalue
}.

Section ImplController.

(** [b3j0f.utils.path.lookup]: what a path resolves to. *)
Variable lookup : string -> res pyvalue.

(** The call [cls(params)] of a class. *)
Variable new : string -> dict pyvalue -> res pyvalue.

(** The first step of the [cls] setter: a string is resolved. *)
Definition resolve (value : pyvalue) : res pyvalue :=
  match value with
  | PStr path => lookup path
  | _ => Ok value
  end.

(** The setter of [ImplController.cls]. *)
Definition cls_setter (self : ImplController) (value : pyvalue)
    : res unit * ImplController :=
  match resolve value with
  | Raise e => (Raise e, self)
  | Ok value =>
      match value with
      | PClass k => (Ok tt, mkImplController k PNone)
      | _ => (Raise TypeError, self)
      end
  end.

(** The setter of [ImplController.impl]. *)
Definition impl_setter (self : ImplController) (value : pyvalue)
    : res unit * ImplController :=
  match cls_setter self (PClass (class_name value)) with
  | (Raise e, self) => (Raise e, self)
  | (Ok _, self) => (Ok tt, mkImplController (_cls self) value)
  end.

(** [ImplController.renew_impl(cls=cls, params=params)] with the default
    [component=None], for which no annotation is applied. *)
Definition renew_impl (self : ImplController) (cls : pyvalue)
    (params : dict pyvalue) : res pyvalue * ImplController :=
  match cls_setter self cls with
  | (Raise e, self) => (Raise e, self)
  | (Ok _, self) =>
      match new (_cls self) params with
      | Raise e => (Raise e, self)
      | Ok result =>
          match impl_setter self result with
          | (Raise e, self) => (Raise e, self)
          | (Ok _, self) => (Ok result, self)
          end
      end
  end.

(** The operations on a controller, and a run of them. *)
Inductive operation : Type :=
| SetCls (value : pyvalue)
| SetImpl (value : pyvalue)
| RenewImpl (cls : pyvalue) (params : dict pyvalue).

Definition step (self : ImplController) (op : operation) : ImplController :=
  match op with
  | SetCls value => snd (cls_setter self value)
  | SetImpl value => snd (impl_setter self value)
  | RenewImpl cls params => snd (renew_impl self cls params)
  end.

Definition run (ops : list operation) (self : ImplController)
    : ImplController :=
  fold_left step ops self.

End ImplController.

(** A controller whose implementation, when it has one, is an instance of
    its class. *)
Definition consistent (self : ImplController) : Prop :=
  _impl self = PNone \/ _cls self = class_name (_impl self).

End Impl.

(** * Properties *)

(** ** Python sequences *)

Lemma py_slice_nonneg {A : Type} (s : list A) (lo hi : Z) :
  0 <= lo <= hi -> lo <= Z.of_nat (length s) ->
  py_slice s lo hi
  = firstn (Z.to_nat (hi - lo)) (skipn (Z.to_nat lo) s).
Proof.
  intros Hlo Hlen. unfold py_slice, slice_bound.
  destruct (Z.ltb_spec lo 0) as [?|_]; [lia|].
  destruct (Z.ltb_spec hi 0) as [?|_]; [lia|].
  rewrite (Z.min_l lo) by lia.
  destruct (Z.le_gt_cases hi (Z.of_nat (length s))) as [Hhi|Hhi].
  - rewrite Z.min_l by lia. reflexivity.
  - rewrite Z.min_r by lia.
    rewrite !firstn_all2; [reflexivity| |];
      rewrite length_skipn; lia.
Qed.

Lemma py_index_in_range {A : Type} (s : list A) (i : nat) :
  (i < length s)%nat -> py_index s (Z.of_nat i) = nth_error s i.
Proof.
  intros Hi. unfold py_index.
  destruct (Z.leb_spec 0 (Z.of_nat i)) as [_|?]; [|lia].
  destruct (Z.ltb_spec (Z.of_nat i) (Z.of_nat (length s))) as [_|?]; [|lia].
  simpl. now rewrite Nat2Z.id.
Qed.

(** ** Policies *)

Module PolicyFacts.
Import Policy.

(** [FirstPolicy] on a non-empty tagged set gives its first element, and
    the null value on the empty one. *)
Lemma FirstPolicy_first (x : value) (xs : list value) :
  FirstPolicy_call (VPolicyResultSet (x :: xs)) = x.
Proof. reflexivity. Qed.

Lemma FirstPolicy_empty : FirstPolicy_call (VPolicyResultSet []) = VNone.
Proof. reflexivity. Qed.

(** One call of a [RoundaboutPolicy] whose cursor is inside the set returns
    the element under the cursor and moves the cursor one step, modulo the
    length of the set. *)
Lemma RoundaboutPolicy_step (i : nat) (xs : list value) (x : value) :
  nth_error xs i = Some x ->
  RoundaboutPolicy_call (mkRoundaboutPolicy (Z.of_nat i))
    (VPolicyResultSet xs)
  = (Ok x,
     mkRoundaboutPolicy ((Z.of_nat i + 1) mod Z.of_nat (length xs))).
Proof.
  intros Hnth.
  assert (Hlt : (i < length xs)%nat).
  { apply nth_error_Some. congruence. }
  unfold RoundaboutPolicy_call, Policy_call. simpl index.
  destruct xs as [|y ys]; [simpl in Hlt; lia|].
  rewrite py_index_in_range by exact Hlt.
  rewrite Hnth. reflexivity.
Qed.

(** C4: a [CountPolicy] called on a tagged set raises [CountError] exactly
    when the set has fewer than [inf] elements, whatever the [random] flag,
    [sup] and the drawn permutation are; the drawn permutation and the
    slices play no part in the raise. *)
Theorem CountPolicy_raises_iff_below_inf
    (shuffle : list value -> list value) (self : CountPolicy)
    (xs : list value) :
  (CountPolicy_call shuffle self (VPolicyResultSet xs) = Raise CountError
   <-> Z.of_nat (length xs) < inf self)
  /\ (forall (shuffle' : list value -> list value) (sup' : Z) (random' : bool),
        CountPolicy_call shuffle' (mkCountPolicy (inf self) sup' random')
          (VPolicyResultSet xs) = Raise CountError
        <-> CountPolicy_call shuffle self (VPolicyResultSet xs)
            = Raise CountError).
Proof.
  assert (H : forall sh c,
             CountPolicy_call sh c (VPolicyResultSet xs) = Raise CountError
             <-> Z.of_nat (length xs) < inf c).
  { intros sh c. unfold CountPolicy_call, Policy_call.
    destruct (Z.ltb_spec (Z.of_nat (length xs)) (inf c)) as [Hlt|Hge].
    - split; [intros _; exact Hlt | reflexivity].
    - split; [discriminate | lia]. }
  split.
  - apply H.
  - intros sh' sup' random'. rewrite !H. reflexivity.
Qed.

(** C5, as amended: [CountPolicy(inf=2, sup=4, random=False)] called on a
    tagged set of at least 2 candidates returns the tagged slice [[2:4]] of
    the candidates: the third and the fourth, as far as they exist. *)
Theorem CountPolicy_2_4_slice (shuffle : list value -> list value)
    (xs : list value) :
  2 <= Z.of_nat (length xs) ->
  CountPolicy_call shuffle (mkCountPolicy 2 4 false) (VPolicyResultSet xs)
  = Ok (VPolicyResultSet (firstn 2 (skipn 2 xs))).
Proof.
  intros Hlen. unfold CountPolicy_call, Policy_call. simpl inf. simpl sup.
  simpl random.
  destruct (Z.ltb_spec (Z.of_nat (length xs)) 2) as [?|_]; [lia|].
  rewrite py_slice_nonneg by lia. reflexivity.
Qed.

Lemma CountPolicy_2_4_slice_witness :
  2 <= Z.of_nat (length [VInt 1; VInt 2; VInt 3; VInt 4; VInt 5]) /\
  CountPolicy_call Scenario.no_shuffle (mkCountPolicy 2 4 false)
    (VPolicyResultSet [VInt 1; VInt 2; VInt 3; VInt 4; VInt 5])
  = Ok (VPolicyResultSet [VInt 3; VInt 4]).
Proof.
  split; [simpl; lia|].
  apply (CountPolicy_2_4_slice Scenario.no_shuffle
           [VInt 1; VInt 2; VInt 3; VInt 4; VInt 5]).
  simpl; lia.
Defined.

(** C5, as stated, fails: of three candidates only the third is used, and
    of five only the third and the fourth. *)
Lemma cardinality_as_stated_fails : ~ cardinality_as_stated.
Proof.
  intros H.
  destruct (H Scenario.no_shuffle [VInt 1; VInt 2; VInt 3]) as [H3 _].
  specialize (H3 ltac:(simpl; lia)).
  vm_compute in H3. discriminate H3.
Qed.

(** C7: every reference policy hands a value that is not a
    [PolicyResultSet] back unchanged, and is itself left as it was. *)
Theorem policy_passthrough (shuffle : list value -> list value)
    (choice : list value -> value) (p : policy) (v : value) :
  is_PolicyResultSet v = false ->
  call shuffle choice p v = (Ok v, p).
Proof.
  intros Hv.
  destruct p as [| |c| |r]; destruct v; try discriminate Hv; reflexivity.
Qed.

Lemma policy_passthrough_witness :
  is_PolicyResultSet (VList []) = false /\
  call Scenario.no_shuffle Scenario.first_choice
    (Count (mkCountPolicy 5 7 true)) (VList [])
  = (Ok (VList []), Count (mkCountPolicy 5 7 true)).
Proof.
  split; [reflexivity|].
  apply (policy_passthrough Scenario.no_shuffle Scenario.first_choice
           (Count (mkCountPolicy 5 7 true)) (VList [])).
  reflexivity.
Defined.

(** C8: four successive calls of a new [RoundaboutPolicy] on the tagged set
    [[a, b, c]] return [a], [b], [c] and [a] again; each call moves the
    cursor by one modulo the length of the set; on the empty tagged set
    the policy returns the null value and keeps its cursor. *)
Theorem RoundaboutPolicy_round (a b c : value) :
  RoundaboutPolicy_calls 4 RoundaboutPolicy_init (VPolicyResultSet [a; b; c])
  = ([Ok a; Ok b; Ok c; Ok a], mkRoundaboutPolicy 1)
  /\ (forall (i : nat) (x : value),
        nth_error [a; b; c] i = Some x ->
        RoundaboutPolicy_call (mkRoundaboutPolicy (Z.of_nat i))
          (VPolicyResultSet [a; b; c])
        = (Ok x, mkRoundaboutPolicy ((Z.of_nat i + 1) mod 3)))
  /\ (forall self : RoundaboutPolicy,
        RoundaboutPolicy_call self (VPolicyResultSet []) = (Ok VNone, self)).
Proof.
  split; [reflexivity|]. split.
  - intros i x Hnth. apply (RoundaboutPolicy_step i [a; b; c] x Hnth).
  - intros self. reflexivity.
Qed.

End PolicyFacts.

(** ** The store *)

Lemma dict_get_set_eq {V : Type} (d : dict V) (k : string) (v : V) :
  dict_get (dict_set d k v) k = Some v.
Proof.
  induction d as [|[k' v'] d IH]; simpl.
  - rewrite String.eqb_refl. reflexivity.
  - destruct (String.eqb k' k) eqn:Hk; simpl.
    + rewrite String.eqb_refl. reflexivity.
    + rewrite Hk. exact IH.
Qed.

Lemma isinstance_Resource_is_resource (v : value) (s : store) :
  isinstance_Resource v s = (Ok (is_resource s v), s).
Proof.
  destruct v; try reflexivity. simpl.
  destruct (heap s !! o) as [[c|name p]|]; reflexivity.
Qed.

Lemma is_resource_class_of (s s' : store) :
  (forall o, class_of s' o = class_of s o) ->
  forall v, is_resource s' v = is_resource s v.
Proof.
  intros Hclass v. destruct v; try reflexivity. simpl.
  specialize (Hclass o). unfold class_of in Hclass.
  destruct (heap s' !! o) as [[c'|n' p']|], (heap s !! o) as [[c|n p]|];
    try reflexivity; try discriminate.
  injection Hclass as ->. reflexivity.
Qed.

(** [Port.resources] reads the store and leaves it as it is. *)
Lemma Port_resources_filter (self : oid) (c : component) (s : store) :
  heap s !! self = Some (OComponent c) ->
  Port_resources self s = (Ok (resources_of s c), s).
Proof.
  intros Hself. unfold Port_resources, bind, get_component. rewrite Hself.
  unfold resources_of. induction (ports c) as [|[name child] rest IH].
  - reflexivity.
  - cbn [get_ports_Resource List.filter snd]. unfold bind at 1.
    rewrite isinstance_Resource_is_resource.
    unfold bind at 1. rewrite IH. unfold ret.
    destruct (is_resource s child); reflexivity.
Qed.

(** [_renew_proxy] raises at its first statement and leaves the store as it
    is, on every object and in every store. *)
Lemma Port__renew_proxy_raises (self : oid) (s : store) :
  Port__renew_proxy self s = (Raise AttributeError, s).
Proof.
  unfold Port__renew_proxy. unfold bind at 1.
  destruct (heap s !! self) as [[c|n p]|] eqn:Hself.
  - rewrite (Port_resources_filter self c s Hself).
    unfold bind at 1. unfold Port_getattr, bind, get_component.
    rewrite Hself. reflexivity.
  - unfold Port_resources, bind, get_component. rewrite Hself. reflexivity.
  - unfold Port_resources, bind, get_component. rewrite Hself. reflexivity.
Qed.

(** Rewriting a component without touching its class and its proxy. *)
Lemma put_component_keeps (o : oid) (c c' : component) (s : store) :
  heap s !! o = Some (OComponent c) ->
  cls c' = cls c -> _proxy c' = _proxy c ->
  forall o',
    class_of (snd (put_component o c' s)) o' = class_of s o'
    /\ proxy_of (snd (put_component o c' s)) o' = proxy_of s o'.
Proof.
  intros Ho Hcls Hproxy o'. unfold put_component, class_of, proxy_of.
  simpl. destruct (decide (o = o')) as [<-|Hne].
  - rewrite lookup_insert_eq, Ho, Hcls, Hproxy. split; reflexivity.
  - rewrite lookup_insert_ne by exact Hne. split; reflexivity.
Qed.

Lemma update_bound_on_keeps (v : value)
    (f : list (oid * list string) -> list (oid * list string)) (s : store) :
  exists s',
    update_bound_on v f s = (Ok tt, s')
    /\ forall o',
         class_of s' o' = class_of s o'
         /\ proxy_of s' o' = proxy_of s o'
         /\ ports_of s' o' = ports_of s o'.
Proof.
  unfold update_bound_on.
  destruct v;
    try (exists s; split; [reflexivity | intros o'; repeat split]).
  destruct (heap s !! o) as [[c|name p]|] eqn:Ho;
    try (exists s; split; [reflexivity | intros o'; repeat split]).
  eexists. split; [reflexivity|].
  intros o'. unfold put_component, class_of, proxy_of, ports_of. simpl.
  destruct (decide (o = o')) as [<-|Hne].
  - rewrite lookup_insert_eq, Ho. repeat split.
  - rewrite lookup_insert_ne by exact Hne. repeat split.
Qed.

(** [Component.set_port] returns the name and the previous binding,
    installs the new binding on the component and on no other, and changes
    no class and no proxy. *)
Lemma Component_set_port_keeps (self : oid) (port : value) (name : string)
    (c : component) (s : store) :
  heap s !! self = Some (OComponent c) ->
  exists s',
    Component_set_port self port name s
    = (Ok (name, bound_under s self name), s')
    /\ (forall o',
          class_of s' o' = class_of s o' /\ proxy_of s' o' = proxy_of s o')
    /\ ports_of s' self = Some (dict_set (ports c) name port)
    /\ (forall o', o' <> self -> ports_of s' o' = ports_of s o').
Proof.
  intros Hself. unfold Component_set_port, bound_under. rewrite Hself.
  unfold bind at 1. unfold get_component at 1. rewrite Hself.
  set (old_port := default VNone (dict_get (ports c) name)).
  unfold bind at 1.
  destruct (update_bound_on_keeps old_port
              (fun b => bound_on_remove b self name) s)
    as (s1 & -> & Hkeep1).
  unfold bind at 1. unfold modify_component, bind at 1.
  assert (Hself1 : exists c1, heap s1 !! self = Some (OComponent c1)
                              /\ ports c1 = ports c).
  { destruct (Hkeep1 self) as (_ & _ & Hports).
    unfold ports_of in Hports. rewrite Hself in Hports.
    destruct (heap s1 !! self) as [[c1|n p]|]; try discriminate.
    exists c1. split; [reflexivity | congruence]. }
  destruct Hself1 as (c1 & Hself1 & Hports1).
  unfold get_component at 1. rewrite Hself1.
  pose proof (put_component_keeps self c1
                (with_ports c1 (dict_set (ports c1) name port)) s1 Hself1
                eq_refl eq_refl) as Hkeep2.
  unfold put_component in Hkeep2 |- *. cbn [snd] in Hkeep2.
  unfold bind at 1.
  match goal with
  | |- context [update_bound_on port ?f ?s2] =>
      destruct (update_bound_on_keeps port f s2) as (s3 & -> & Hkeep3)
  end.
  unfold ret. exists s3. split; [reflexivity|]. split; [|split].
  - intros o'. destruct (Hkeep1 o') as (Ha1 & Hb1 & _).
    destruct (Hkeep2 o') as [Ha2 Hb2]. destruct (Hkeep3 o') as (Ha3 & Hb3 & _).
    split; [rewrite Ha3, Ha2, Ha1 | rewrite Hb3, Hb2, Hb1]; reflexivity.
  - destruct (Hkeep3 self) as (_ & _ & ->).
    unfold ports_of. cbn [heap]. rewrite lookup_insert_eq.
    cbn [with_ports ports]. rewrite Hports1. reflexivity.
  - intros o' Hne. destruct (Hkeep3 o') as (_ & _ & ->).
    destruct (Hkeep1 o') as (_ & _ & <-).
    unfold ports_of. cbn [heap].
    rewrite lookup_insert_ne by (intros Heq; apply Hne; symmetry; exact Heq).
    reflexivity.
Qed.

(** [check_res] on objects of the store reads the store; it answers or
    raises [AttributeError]. *)
Lemma Port_check_res_reads (is_sub_itf : Interface -> Interface -> bool)
    (self : oid) (resource : value) (s : store) :
  (exists valid, Port_check_res is_sub_itf self resource s = (Ok valid, s))
  \/ Port_check_res is_sub_itf self resource s = (Raise AttributeError, s).
Proof.
  unfold Port_check_res. destruct resource; try (right; reflexivity).
  unfold bind, get_component, ret.
  destruct (heap s !! o) as [[r|n p]|]; try (right; reflexivity).
  destruct (heap s !! self) as [[c|n p]|]; try (right; reflexivity).
  left. eexists. reflexivity.
Qed.

(** What [set_port] does once its check has let the value through: the
    binding of the component, and then [_renew_proxy] when a resource comes
    or goes. *)
Lemma Port_set_port_unfold (is_sub_itf : Interface -> Interface -> bool)
    (self : oid) (port : value) (name : string) (c : component)
    (s : store) :
  heap s !! self = Some (OComponent c) ->
  (is_resource s port = false
   \/ Port_check_res is_sub_itf self port s = (Ok true, s)) ->
  exists s',
    Component_set_port self port name s
    = (Ok (name, bound_under s self name), s')
    /\ Port_set_port is_sub_itf self port name s
       = if is_resource s (bound_under s self name) || is_resource s port
         then (Raise AttributeError, s')
         else (Ok (name, bound_under s self name), s').
Proof.
  intros Hself Hguard.
  destruct (Component_set_port_keeps self port name c s Hself)
    as (s' & Hset & Hkeep & _).
  assert (Hsame : forall v, is_resource s' v = is_resource s v).
  { apply is_resource_class_of. intros o. apply Hkeep. }
  exists s'. split; [exact Hset|].
  unfold Port_set_port. unfold bind at 1.
  rewrite isinstance_Resource_is_resource. unfold bind at 1.
  assert (Hpass : exists valid,
            (if is_resource s port
             then Port_check_res is_sub_itf self port else ret true) s
            = (Ok valid, s)
            /\ is_resource s port && negb valid = false).
  { destruct Hguard as [Hport|Hcheck].
    - rewrite Hport. exists true. split; reflexivity.
    - exists true. split; [|apply andb_false_r].
      destruct (is_resource s port); [exact Hcheck | reflexivity]. }
  destruct Hpass as (valid & -> & ->).
  unfold bind at 1. rewrite Hset.
  unfold bind at 1. rewrite isinstance_Resource_is_resource, Hsame.
  unfold bind at 1.
  replace ((if is_resource s (bound_under s self name)
            then Port__remove_resource self name (bound_under s self name)
            else ret tt) s') with (Ok tt, s')
    by (destruct (is_resource s (bound_under s self name)); reflexivity).
  unfold bind at 1. rewrite isinstance_Resource_is_resource, Hsame.
  unfold bind at 1.
  replace ((if is_resource s port
            then Port__add_resource self name port else ret tt) s')
    with (Ok tt, s') by (destruct (is_resource s port); reflexivity).
  unfold bind at 1.
  destruct (is_resource s (bound_under s self name) || is_resource s port).
  - rewrite Port__renew_proxy_raises. reflexivity.
  - reflexivity.
Qed.

(** The outcomes of [set_port]: [PortError] from its check, with the store
    untouched; [AttributeError]; or the name with the previous binding.
    Whatever the outcome, no class and no proxy of the store changes. *)
Lemma Port_set_port_cases (is_sub_itf : Interface -> Interface -> bool)
    (self : oid) (port : value) (name : string) (s : store) :
  exists result s',
    Port_set_port is_sub_itf self port name s = (result, s')
    /\ (forall o,
          class_of s' o = class_of s o /\ proxy_of s' o = proxy_of s o)
    /\ (result = Raise PortError /\ s' = s
        \/ result = Raise AttributeError
        \/ result = Ok (name, bound_under s self name)).
Proof.
  assert (Hstay : forall o : oid,
            class_of s o = class_of s o /\ proxy_of s o = proxy_of s o)
    by (intros o; split; reflexivity).
  destruct (heap s !! self) as [[c|n p]|] eqn:Hself.
  - assert (Hthrough :
      is_resource s port = false
      \/ Port_check_res is_sub_itf self port s = (Ok true, s) ->
      exists result s',
        Port_set_port is_sub_itf self port name s = (result, s')
        /\ (forall o,
              class_of s' o = class_of s o /\ proxy_of s' o = proxy_of s o)
        /\ (result = Raise PortError /\ s' = s
            \/ result = Raise AttributeError
            \/ result = Ok (name, bound_under s self name))).
    { intros Hguard.
      destruct (Component_set_port_keeps self port name c s Hself)
        as (s1 & Hset1 & Hkeep & _).
      destruct (Port_set_port_unfold is_sub_itf self port name c s Hself
                  Hguard) as (s' & Hset & Heq).
      rewrite Hset1 in Hset. injection Hset as <-.
      rewrite Heq.
      destruct (is_resource s (bound_under s self name)
                || is_resource s port);
        eexists; exists s1; (split; [reflexivity|]);
        (split; [exact Hkeep|]); [right; left | right; right]; reflexivity. }
    destruct (is_resource s port) eqn:Hport; [|apply Hthrough; left; reflexivity].
    destruct (Port_check_res_reads is_sub_itf self port s)
      as [([|] & Hcheck)|Hcheck].
    + apply Hthrough. right. exact Hcheck.
    + exists (Raise PortError), s. split; [|split; [exact Hstay|]].
      * unfold Port_set_port. unfold bind at 1.
        rewrite isinstance_Resource_is_resource, Hport.
        unfold bind at 1. rewrite Hcheck. reflexivity.
      * left. split; reflexivity.
    + exists (Raise AttributeError), s. split; [|split; [exact Hstay|]].
      * unfold Port_set_port. unfold bind at 1.
        rewrite isinstance_Resource_is_resource, Hport.
        unfold bind at 1. rewrite Hcheck. reflexivity.
      * right. left. reflexivity.
  - exists (Raise AttributeError), s. split; [|split; [exact Hstay|]].
    + unfold Port_set_port. unfold bind at 1.
      rewrite isinstance_Resource_is_resource. unfold bind at 1.
      destruct (is_resource s port).
      * destruct (Port_check_res_reads is_sub_itf self port s)
          as [(valid & Hcheck)|Hcheck].
        -- exfalso. unfold Port_check_res in Hcheck.
           destruct port; try discriminate.
           unfold bind, get_component in Hcheck.
           destruct (heap s !! o) as [[r|n' p']|]; try discriminate.
           rewrite Hself in Hcheck. discriminate.
        -- rewrite Hcheck. reflexivity.
      * unfold ret at 1. cbn [andb]. unfold bind at 1.
        unfold Component_set_port, bind at 1, get_component at 1.
        rewrite Hself. reflexivity.
    + right. left. reflexivity.
  - exists (Raise AttributeError), s. split; [|split; [exact Hstay|]].
    + unfold Port_set_port. unfold bind at 1.
      rewrite isinstance_Resource_is_resource. unfold bind at 1.
      destruct (is_resource s port).
      * destruct (Port_check_res_reads is_sub_itf self port s)
          as [(valid & Hcheck)|Hcheck].
        -- exfalso. unfold Port_check_res in Hcheck.
           destruct port; try discriminate.
           unfold bind, get_component in Hcheck.
           destruct (heap s !! o) as [[r|n' p']|]; try discriminate.
           rewrite Hself in Hcheck. discriminate.
        -- rewrite Hcheck. reflexivity.
      * unfold ret at 1. cbn [andb]. unfold bind at 1.
        unfold Component_set_port, bind at 1, get_component at 1.
        rewrite Hself. reflexivity.
    + right. left. reflexivity.
Qed.

(** ** Ports *)

Section PortFacts.

Variable is_sub_itf : Interface -> Interface -> bool.

(** The inner loop of [check_res] over a non-empty [self.itfs] forgets the
    [result] it starts from. *)
Lemma check_res_self_itfs_forallb (resource_itf self_itf : Interface)
    (self_itfs : list Interface) (result : bool) :
  check_res_self_itfs is_sub_itf resource_itf (self_itf :: self_itfs) result
  = forallb (is_sub_itf resource_itf) (self_itf :: self_itfs).
Proof.
  revert self_itf result.
  induction self_itfs as [|next_itf rest IH]; intros self_itf result; simpl.
  - destruct (is_sub_itf resource_itf self_itf); reflexivity.
  - destruct (is_sub_itf resource_itf self_itf) eqn:Hsub; simpl.
    + apply (IH next_itf true).
    + reflexivity.
Qed.

Lemma check_res_resource_itfs_app (resource_itfs more self_itfs
    : list Interface) (result : bool) :
  check_res_resource_itfs is_sub_itf (resource_itfs ++ more) self_itfs result
  = check_res_resource_itfs is_sub_itf more self_itfs
      (check_res_resource_itfs is_sub_itf resource_itfs self_itfs result).
Proof.
  revert result.
  induction resource_itfs as [|r rest IH]; intros result; simpl.
  - reflexivity.
  - apply IH.
Qed.

(** What [check_res] computes: the test of the last interface of the
    resource alone. *)
Lemma check_res_last_interface (self_itf : Interface)
    (self_itfs resource_itfs : list Interface) (last_itf : Interface) :
  check_res is_sub_itf (self_itf :: self_itfs) (resource_itfs ++ [last_itf])
  = forallb (is_sub_itf last_itf) (self_itf :: self_itfs).
Proof.
  unfold check_res. rewrite check_res_resource_itfs_app.
  cbn [check_res_resource_itfs].
  apply check_res_self_itfs_forallb.
Qed.

(** A resource all of whose interfaces fit is accepted. *)
Lemma all_sub_itfs_check_res (self_itfs resource_itfs : list Interface) :
  all_sub_itfs is_sub_itf self_itfs resource_itfs = true ->
  check_res is_sub_itf self_itfs resource_itfs = true.
Proof.
  destruct self_itfs as [|self_itf self_itfs].
  - intros _. unfold check_res.
    induction resource_itfs as [|r rest IH]; simpl; [reflexivity | exact IH].
  - induction resource_itfs as [|last_itf rest _] using rev_ind.
    + reflexivity.
    + intros Hall. rewrite check_res_last_interface.
      unfold all_sub_itfs in Hall. rewrite forallb_app in Hall.
      apply andb_prop in Hall as [_ Hlast]. simpl in Hlast.
      rewrite andb_true_r in Hlast. exact Hlast.
Qed.

(** C6: a call of [set_port] that raises [PortError] leaves the store as it
    was, on every port, value, name and store: the bindings and proxy of
    the port, and every other object, are untouched.  [PortError] is what
    the call raises, before anything is written, when the resource fails
    [check_res]. *)
Theorem set_port_PortError_keeps_store (self : oid) (port : value)
    (name : string) (s : store) :
  (forall s',
     Port_set_port is_sub_itf self port name s = (Raise PortError, s') ->
     s' = s)
  /\ (forall (o : oid) (c r : component),
        port = VObj o ->
        heap s !! self = Some (OComponent c) ->
        heap s !! o = Some (OComponent r) ->
        subclass_of_Resource (cls r) = true ->
        check_res is_sub_itf (itfs c) (itfs r) = false ->
        Port_set_port is_sub_itf self port name s = (Raise PortError, s)).
Proof.
  split.
  - intros s' Hraise.
    destruct (Port_set_port_cases is_sub_itf self port name s)
      as (result & s1 & Hset & _ & Hcases).
    rewrite Hset in Hraise. injection Hraise as -> ->.
    destruct Hcases as [[_ Hs]|[Hresult|Hresult]];
      [exact Hs | discriminate | discriminate].
  - intros o c r -> Hself Ho Hres Hcheck.
    unfold Port_set_port. unfold bind at 1.
    unfold isinstance_Resource at 1. rewrite Ho, Hres.
    unfold bind at 1. unfold Port_check_res, bind, get_component, ret.
    rewrite Ho, Hself, Hcheck. reflexivity.
Qed.

(** C10: assigning [Port.multiple] its current value leaves the store as it
    is: no proxy is made and nothing is propagated.  Assigning the other
    value flips the flag and then runs [_renew_proxy]. *)
Theorem multiple_setter_same_value (self : oid) (c : component)
    (s : store) :
  heap s !! self = Some (OComponent c) ->
  Port_multiple_setter self (_multiple c) s = (Ok tt, s)
  /\ Port_multiple_setter self (negb (_multiple c)) s
     = Port__renew_proxy self
         (mkStore
            (<[self := OComponent (with_multiple c (negb (_multiple c)))]>
               (heap s))
            (next s)).
Proof.
  intros Hself. unfold Port_multiple_setter. split.
  - unfold bind, get_component. rewrite Hself.
    rewrite Bool.eqb_reflx. reflexivity.
  - unfold bind at 1. unfold get_component at 1. rewrite Hself.
    replace (Bool.eqb (negb (_multiple c)) (_multiple c)) with false
      by (destruct (_multiple c); reflexivity).
    cbn [negb]. unfold bind at 1.
    unfold modify_component, bind, get_component, put_component.
    rewrite Hself. reflexivity.
Qed.

End PortFacts.

(** ** The scenarios, evaluated *)

Module ScenarioFacts.
Import Scenario.

Lemma set_port_PortError_keeps_store_witness :
  let s := snd (port_A_resource_B empty_store) in
  Port_set_port same_class 0%nat (VObj 4%nat) "bad" s = (Raise PortError, s)
  /\ ports_of s 0%nat = Some [].
Proof.
  cbv zeta. split; [|vm_compute; reflexivity].
  eapply (proj2 (set_port_PortError_keeps_store same_class 0%nat
                   (VObj 4%nat) "bad" _) 4%nat);
    vm_compute; reflexivity.
Defined.

Lemma multiple_setter_same_value_witness :
  let s := snd (port_A_resource_B empty_store) in
  Port_multiple_setter 0%nat false s = (Ok tt, s).
Proof.
  cbv zeta.
  eapply (proj1 (multiple_setter_same_value 0%nat
                   (mkComponent Port _ _ _ _ false _ _ _ _ _) _ _)).
  Unshelve. all: try (vm_compute; reflexivity).
Defined.

(** The last stage of [method_proxy] without a result policy hands a value
    that is not a non-empty [PolicyResultSet] back unchanged. *)
Lemma default_result_untagged (results : value) :
  is_PolicyResultSet results = false -> default_result results = results.
Proof. destruct results; try discriminate; reflexivity. Qed.

Lemma default_result_empty :
  default_result (VPolicyResultSet []) = VPolicyResultSet [].
Proof. reflexivity. Qed.

(** C1: without a result policy, raw results that are a non-empty
    [PolicyResultSet] are answered by the list [[0]], whatever they hold,
    not by their first element: so does the closure whose execution policy
    hands back the tagged set [5, 7].  With no execution policy either, the
    closure returns the whole list of the results of the candidates,
    [[1, 2]], not the first one.  On a port, [_method_proxy] raises before
    it makes a closure, and the end-to-end scenario of the specification
    raises when its first resource is bound. *)
Theorem method_proxy_default_result_is_list_0 :
  (forall (x : value) (xs : list value),
      default_result (VPolicyResultSet (x :: xs)) = VList [VInt 0])
  /\ fst (call_closure_tagged_results empty_store) = Ok (VList [VInt 0])
  /\ fst (call_closure_no_policy empty_store) = Ok (VList [VInt 1; VInt 2])
  /\ (forall (self : oid) (r_name : string) (proxies : value) (s : store),
        fst (Port__method_proxy self r_name proxies s)
        = Raise AttributeError)
  /\ fst (call_X_Y 0 empty_store) = Raise AttributeError.
Proof.
  split; [reflexivity|].
  split; [vm_compute; reflexivity|].
  split; [vm_compute; reflexivity|].
  split; [|vm_compute; reflexivity].
  intros self r_name proxies s.
  unfold Port__method_proxy, Port_getattr.
  destruct (heap s !! self) as [[c|n p]|] eqn:Hself;
    unfold bind, get_component; rewrite ?Hself; cbn; rewrite ?Hself;
    cbn; rewrite ?Hself; reflexivity.
Qed.

(** C2: a port requiring [B] lets through a resource providing [A] and
    [B], although [A] is not a sub-interface of [B]: [check_res] answers
    for the last interface of the resource only.  [set_port] installs the
    binding without [PortError]; it then raises [AttributeError], as it
    does for a resource all of whose interfaces fit. *)
Theorem check_res_accepts_unfit_interface :
  check_res same_class [itf "B"] [itf "A"; itf "B"] = true
  /\ all_sub_itfs same_class [itf "B"] [itf "A"; itf "B"] = false
  /\ (let s := snd (port_B_resource_AB empty_store) in
      let after := Port_set_port same_class 0%nat (VObj 2%nat) "r" s in
      fst after = Raise AttributeError
      /\ ports_of (snd after) 0%nat = Some [("r", VObj 2%nat)])
  /\ (let s := snd (default_port_and_resource empty_store) in
      all_sub_itfs same_class [itf "A"] [itf "A"] = true
      /\ fst (Port_set_port same_class 0%nat (VObj 2%nat) "r" s)
         = Raise AttributeError).
Proof.
  split; [reflexivity|]. split; [reflexivity|].
  cbv zeta. repeat split; vm_compute; reflexivity.
Qed.

(** C3: a port with the default arguments never offers a proxy.  Reading
    [proxy] raises and stores nothing; binding a fitting resource under [r]
    installs the binding and then raises inside [_renew_proxy]; the
    [_proxy] of the port is [None] as before, and reading [proxy] after the
    binding raises again. *)
Theorem set_port_leaves_no_proxy :
  let s := snd (default_port_and_resource empty_store) in
  let after := Port_set_port same_class 0%nat (VObj 2%nat) "r" s in
  Port_proxy 0%nat s = (Raise AttributeError, s)
  /\ fst after = Raise AttributeError
  /\ ports_of (snd after) 0%nat = Some [("r", VObj 2%nat)]
  /\ proxy_of (snd after) 0%nat = Some VNone
  /\ Port_proxy 0%nat (snd after) = (Raise AttributeError, snd after).
Proof.
  cbv zeta. repeat split; vm_compute; reflexivity.
Qed.

(** C9: no [ProxySet] is ever built, whatever the port and the resources:
    the construction raises.  Over one multi-valued resource with two
    backends and two single-valued resources it raises the lookup error of
    [resource[name]] when the resources bind nothing under their own name
    ([__init__] reads [resource[name]] where [Port._renew_proxy] reads
    [resource.proxy]), and it returns no set either when they do. *)
Theorem ProxySet_is_never_built :
  (forall (port : oid) (resources : dict value) (s : store),
      exists e s', ProxySet_init port resources s = (Raise e, s'))
  /\ fst (ProxySet_over_three false empty_store) = Raise KeyError
  /\ (forall proxy_set : value,
        fst (ProxySet_over_three true empty_store) <> Ok proxy_set).
Proof.
  split; [|split; [vm_compute; reflexivity|]].
  - intros port resources s. unfold ProxySet_init, bind.
    destruct (ProxySet_fill resources [] s) as [[d|e] s'];
      eexists; eexists; reflexivity.
  - intros proxy_set. vm_compute. discriminate.
Qed.

End ScenarioFacts.

(** ** More on Python sequences *)

(** A slice is a run of consecutive elements of the sequence. *)
Lemma py_slice_infix {A : Type} (s : list A) (lo hi : Z) :
  exists before after : list A, s = before ++ py_slice s lo hi ++ after.
Proof.
  unfold py_slice.
  set (a := Z.to_nat (slice_bound (Z.of_nat (length s)) lo)).
  set (k := Z.to_nat (slice_bound (Z.of_nat (length s)) hi
                      - slice_bound (Z.of_nat (length s)) lo)).
  exists (firstn a s), (skipn k (skipn a s)).
  rewrite (firstn_skipn k (skipn a s)).
  symmetry. apply firstn_skipn.
Qed.

Lemma py_slice_beyond {A : Type} (s : list A) (lo hi : Z) :
  Z.of_nat (length s) <= lo -> py_slice s lo hi = [].
Proof.
  intros Hlo. unfold py_slice, slice_bound.
  destruct (Z.ltb_spec lo 0) as [?|_]; [lia|].
  rewrite (Z.min_r lo) by lia. rewrite Nat2Z.id.
  rewrite skipn_all. apply firstn_nil.
Qed.

Lemma py_slice_length {A : Type} (s : list A) (lo hi : Z) :
  0 <= lo <= hi -> lo <= Z.of_nat (length s) ->
  Z.of_nat (length (py_slice s lo hi))
  = Z.min (Z.of_nat (length s)) hi - lo.
Proof.
  intros Hlo Hlen. rewrite py_slice_nonneg by assumption.
  rewrite length_firstn, length_skipn. lia.
Qed.

Lemma py_slice_all {A : Type} (s : list A) (hi : Z) :
  Z.of_nat (length s) <= hi -> py_slice s 0 hi = s.
Proof.
  intros Hhi. rewrite py_slice_nonneg by lia.
  simpl. apply firstn_all2. lia.
Qed.

(** ** More on the policies *)

Module PolicyLaws.
Import Policy.

(** On an empty tagged set [FirstPolicy], [RandomPolicy] and
    [RoundaboutPolicy] answer [None], [AllPolicy] hands the set back, and
    [CountPolicy] raises [CountError] when [inf] is positive and hands back
    an empty tagged set otherwise, whatever [sup] and [random] are. *)
Theorem policies_on_empty_set (shuffle : list value -> list value)
    (choice : list value -> value) :
  shuffle [] = [] ->
  FirstPolicy_call (VPolicyResultSet []) = VNone
  /\ AllPolicy_call (VPolicyResultSet []) = VPolicyResultSet []
  /\ RandomPolicy_call choice (VPolicyResultSet []) = VNone
  /\ (forall self : RoundaboutPolicy,
        RoundaboutPolicy_call self (VPolicyResultSet []) = (Ok VNone, self))
  /\ (forall self : CountPolicy,
        CountPolicy_call shuffle self (VPolicyResultSet [])
        = if 0 <? inf self then Raise CountError
          else Ok (VPolicyResultSet [])).
Proof.
  intros Hshuffle. repeat split; try reflexivity.
  intros self. unfold CountPolicy_call, Policy_call. simpl length.
  change (Z.of_nat 0) with 0.
  destruct (0 <? inf self); [reflexivity|].
  rewrite Hshuffle.
  assert (Hnil : forall lo hi, @py_slice value [] lo hi = []).
  { intros lo hi. unfold py_slice. rewrite skipn_nil. apply firstn_nil. }
  rewrite !Hnil. destruct (random self); reflexivity.
Qed.

Lemma policies_on_empty_set_witness :
  CountPolicy_call (@rev value) (mkCountPolicy 5 7 true) (VPolicyResultSet [])
  = Raise CountError
  /\ CountPolicy_call (@rev value) (mkCountPolicy 0 7 true)
       (VPolicyResultSet [])
     = Ok (VPolicyResultSet []).
Proof.
  pose proof (policies_on_empty_set (@rev value) Scenario.first_choice
                eq_refl) as (_ & _ & _ & _ & Hcount).
  split.
  - exact (Hcount (mkCountPolicy 5 7 true)).
  - exact (Hcount (mkCountPolicy 0 7 true)).
Defined.

(** [RandomPolicy] on a non-empty tagged set returns an element of the
    set, as [random.choice] draws one. *)
Theorem RandomPolicy_member (choice : list value -> value)
    (x : value) (xs : list value) :
  (forall l : list value, l <> [] -> In (choice l) l) ->
  In (RandomPolicy_call choice (VPolicyResultSet (x :: xs))) (x :: xs).
Proof.
  intros Hchoice. unfold RandomPolicy_call, Policy_call.
  apply Hchoice. discriminate.
Qed.

Lemma RandomPolicy_member_witness :
  In (RandomPolicy_call Scenario.first_choice
        (VPolicyResultSet [VInt 1; VInt 2]))
     [VInt 1; VInt 2].
Proof.
  apply (RandomPolicy_member Scenario.first_choice (VInt 1) [VInt 2]).
  intros l Hl. destruct l as [|y l]; [congruence | left; reflexivity].
Defined.

(** Without [random], what [CountPolicy] selects from a tagged set that is
    not too short is a run of consecutive candidates, in their order: no
    candidate is added, repeated or moved, whatever [inf] and [sup] are. *)
Theorem CountPolicy_selects_a_run (shuffle : list value -> list value)
    (self : CountPolicy) (xs : list value) :
  random self = false ->
  inf self <= Z.of_nat (length xs) ->
  exists before selected after : list value,
    CountPolicy_call shuffle self (VPolicyResultSet xs)
    = Ok (VPolicyResultSet selected)
    /\ xs = before ++ selected ++ after.
Proof.
  intros Hrandom Hinf. unfold CountPolicy_call, Policy_call.
  destruct (Z.ltb_spec (Z.of_nat (length xs)) (inf self)) as [?|_]; [lia|].
  rewrite Hrandom.
  destruct (py_slice_infix xs (inf self) (sup self)) as (before & after & H).
  exists before, (py_slice xs (inf self) (sup self)), after.
  split; [reflexivity | exact H].
Qed.

Lemma CountPolicy_selects_a_run_witness :
  exists before selected after : list value,
    CountPolicy_call Scenario.no_shuffle (mkCountPolicy 1 (-1) false)
      (VPolicyResultSet [VInt 1; VInt 2; VInt 3])
    = Ok (VPolicyResultSet selected)
    /\ [VInt 1; VInt 2; VInt 3] = before ++ selected ++ after.
Proof.
  apply (CountPolicy_selects_a_run Scenario.no_shuffle
           (mkCountPolicy 1 (-1) false) [VInt 1; VInt 2; VInt 3]).
  - reflexivity.
  - simpl; lia.
Defined.

(** With [random], every candidate [CountPolicy] selects is a candidate of
    the set, as [random.shuffle] permutes the list it is given. *)
Theorem CountPolicy_random_selects_candidates
    (shuffle : list value -> list value) (self : CountPolicy)
    (xs : list value) :
  Permutation (shuffle xs) xs ->
  random self = true ->
  inf self <= Z.of_nat (length xs) ->
  exists selected : list value,
    CountPolicy_call shuffle self (VPolicyResultSet xs)
    = Ok (VPolicyResultSet selected)
    /\ (forall x, In x selected -> In x xs).
Proof.
  intros Hperm Hrandom Hinf. unfold CountPolicy_call, Policy_call.
  destruct (Z.ltb_spec (Z.of_nat (length xs)) (inf self)) as [?|_]; [lia|].
  rewrite Hrandom.
  exists (py_slice (shuffle xs) 0 (sup self - inf self)).
  split; [reflexivity|].
  intros x Hx.
  destruct (py_slice_infix (shuffle xs) 0 (sup self - inf self))
    as (before & after & H).
  apply (Permutation_in x Hperm). rewrite H.
  apply in_or_app. right. apply in_or_app. left. exact Hx.
Qed.

Lemma CountPolicy_random_selects_candidates_witness :
  exists selected : list value,
    CountPolicy_call (@rev value) (mkCountPolicy 1 3 true)
      (VPolicyResultSet [VInt 1; VInt 2; VInt 3])
    = Ok (VPolicyResultSet selected)
    /\ (forall x, In x selected -> In x [VInt 1; VInt 2; VInt 3]).
Proof.
  apply (CountPolicy_random_selects_candidates (@rev value)
           (mkCountPolicy 1 3 true) [VInt 1; VInt 2; VInt 3]).
  - symmetry. apply Permutation_rev.
  - reflexivity.
  - simpl; lia.
Defined.

(** How many candidates a [CountPolicy] with [0 <= inf <= sup] selects
    from a set of at least [inf]: without [random], those between the
    positions [inf] and [sup], that is [min(len, sup) - inf]; with [random],
    [min(len, sup - inf)].  The two differ as soon as [inf] is positive and
    the set is shorter than [sup]. *)
Theorem CountPolicy_selected_count (shuffle : list value -> list value)
    (self : CountPolicy) (xs : list value) :
  (forall l : list value, length (shuffle l) = length l) ->
  0 <= inf self <= sup self ->
  inf self <= Z.of_nat (length xs) ->
  exists selected : list value,
    CountPolicy_call shuffle self (VPolicyResultSet xs)
    = Ok (VPolicyResultSet selected)
    /\ Z.of_nat (length selected)
       = if random self
         then Z.min (Z.of_nat (length xs)) (sup self - inf self)
         else Z.min (Z.of_nat (length xs)) (sup self) - inf self.
Proof.
  intros Hshuffle Hbounds Hinf. unfold CountPolicy_call, Policy_call.
  destruct (Z.ltb_spec (Z.of_nat (length xs)) (inf self)) as [?|_]; [lia|].
  destruct (random self).
  - eexists. split; [reflexivity|].
    rewrite py_slice_length by (rewrite ?Hshuffle; lia).
    rewrite Hshuffle. lia.
  - eexists. split; [reflexivity|].
    apply py_slice_length; lia.
Qed.

Lemma CountPolicy_selected_count_witness :
  exists selected : list value,
    CountPolicy_call (@rev value) (mkCountPolicy 2 4 true)
      (VPolicyResultSet [VInt 1; VInt 2; VInt 3])
    = Ok (VPolicyResultSet selected)
    /\ Z.of_nat (length selected) = 2.
Proof.
  apply (CountPolicy_selected_count (@rev value) (mkCountPolicy 2 4 true)
           [VInt 1; VInt 2; VInt 3]).
  - intros l. apply length_rev.
  - simpl; lia.
  - simpl; lia.
Defined.

(** A [CountPolicy] with [inf=0] and without [random] hands back unchanged
    every tagged set of at most [sup] candidates; with the default bounds
    it acts as [AllPolicy] on every set of at most [sys.maxsize]
    candidates. *)
Theorem CountPolicy_keeps_short_sets (shuffle : list value -> list value)
    (sup : Z) (xs : list value) :
  Z.of_nat (length xs) <= sup ->
  CountPolicy_call shuffle (mkCountPolicy 0 sup false) (VPolicyResultSet xs)
  = Ok (AllPolicy_call (VPolicyResultSet xs)).
Proof.
  intros Hsup. unfold CountPolicy_call, AllPolicy_call, Policy_call.
  simpl inf. simpl Policy.sup. simpl random.
  destruct (Z.ltb_spec (Z.of_nat (length xs)) 0) as [?|_]; [lia|].
  rewrite py_slice_all by exact Hsup. reflexivity.
Qed.

Lemma CountPolicy_keeps_short_sets_witness :
  CountPolicy_call Scenario.no_shuffle CountPolicy_default
    (VPolicyResultSet [VInt 1; VInt 2])
  = Ok (VPolicyResultSet [VInt 1; VInt 2]).
Proof.
  apply (CountPolicy_keeps_short_sets Scenario.no_shuffle maxsize
           [VInt 1; VInt 2]).
  vm_compute. discriminate.
Defined.

End PolicyLaws.

Module RoundaboutLaws.
Import Policy.

Lemma RoundaboutPolicy_calls_from (xs : list value) (n k : nat) :
  xs <> [] ->
  RoundaboutPolicy_calls n
    (mkRoundaboutPolicy (Z.of_nat (k mod length xs))) (VPolicyResultSet xs)
  = (map (fun j => Ok (nth (j mod length xs) xs VNone)) (seq k n),
     mkRoundaboutPolicy (Z.of_nat ((k + n) mod length xs))).
Proof.
  intros Hxs.
  assert (Hlen : length xs <> 0%nat) by (destruct xs; [congruence | discriminate]).
  revert k. induction n as [|n IH]; intros k.
  - simpl. rewrite Nat.add_0_r. reflexivity.
  - cbn [RoundaboutPolicy_calls seq map].
    assert (Hlt : (k mod length xs < length xs)%nat)
      by (apply Nat.mod_upper_bound; exact Hlen).
    rewrite (PolicyFacts.RoundaboutPolicy_step (k mod length xs) xs
               (nth (k mod length xs) xs VNone))
      by (apply nth_error_nth'; exact Hlt).
    replace ((Z.of_nat (k mod length xs) + 1) mod Z.of_nat (length xs))
      with (Z.of_nat (S k mod length xs)).
    + rewrite (IH (S k)).
      replace (S k + n)%nat with (k + S n)%nat by lia. reflexivity.
    + rewrite !Nat2Z.inj_mod, Nat2Z.inj_succ.
      rewrite Zplus_mod_idemp_l. reflexivity.
Qed.

(** Called again and again on one non-empty tagged set, a new
    [RoundaboutPolicy] returns at its call number [j] (from 0) the
    candidate at position [j mod len], and after [n] calls its cursor is
    [n mod len]. *)
Theorem RoundaboutPolicy_kth_call (xs : list value) (n : nat) :
  xs <> [] ->
  RoundaboutPolicy_calls n RoundaboutPolicy_init (VPolicyResultSet xs)
  = (map (fun j => Ok (nth (j mod length xs) xs VNone)) (seq 0 n),
     mkRoundaboutPolicy (Z.of_nat (n mod length xs))).
Proof.
  intros Hxs.
  pose proof (RoundaboutPolicy_calls_from xs n 0 Hxs) as H.
  rewrite Nat.Div0.mod_0_l in H. exact H.
Qed.

Lemma RoundaboutPolicy_kth_call_witness :
  RoundaboutPolicy_calls 5 RoundaboutPolicy_init
    (VPolicyResultSet [VInt 1; VInt 2])
  = ([Ok (VInt 1); Ok (VInt 2); Ok (VInt 1); Ok (VInt 2); Ok (VInt 1)],
     mkRoundaboutPolicy 1).
Proof.
  apply (RoundaboutPolicy_kth_call [VInt 1; VInt 2] 5). discriminate.
Defined.

(** After a call on a non-empty tagged set the cursor of a
    [RoundaboutPolicy] lies inside the set, whatever it was before.  When
    the cursor lies outside the set it is called on (the set has become
    shorter), the call raises [IndexError] and the cursor has moved all the
    same. *)
Theorem RoundaboutPolicy_cursor (self : RoundaboutPolicy) (x : value)
    (xs : list value) :
  let len := Z.of_nat (length (x :: xs)) in
  0 <= index (snd (RoundaboutPolicy_call self (VPolicyResultSet (x :: xs))))
    < len
  /\ (len <= index self \/ index self < - len ->
      RoundaboutPolicy_call self (VPolicyResultSet (x :: xs))
      = (Raise IndexError, mkRoundaboutPolicy ((index self + 1) mod len))).
Proof.
  intros len.
  assert (Hlen : 0 < len) by (unfold len; simpl length; lia).
  unfold RoundaboutPolicy_call, Policy_call. fold len. split.
  - destruct (py_index (x :: xs) (index self)); simpl;
      apply Z.mod_pos_bound; exact Hlen.
  - intros Hout. unfold py_index. fold len.
    replace ((0 <=? index self) && (index self <? len)) with false
      by (symmetry; apply andb_false_iff;
          destruct Hout; [right; apply Z.ltb_ge | left; apply Z.leb_gt]; lia).
    replace ((- len <=? index self) && (index self <? 0)) with false
      by (symmetry; apply andb_false_iff;
          destruct Hout; [right; apply Z.ltb_ge | left; apply Z.leb_gt]; lia).
    reflexivity.
Qed.

End RoundaboutLaws.

(** ** More on ports *)

Section PortLaws.

Variable is_sub_itf : Interface -> Interface -> bool.
Variable shuffle : list value -> list value.
Variable choice : list value -> value.

(** For a resource with at most one interface [check_res] is exact: it is
    the test of that interface against every interface of the port, and
    true for a resource without interface. *)
Theorem check_res_single_interface (self_itfs resource_itfs : list Interface) :
  (length resource_itfs <= 1)%nat ->
  check_res is_sub_itf self_itfs resource_itfs
  = all_sub_itfs is_sub_itf self_itfs resource_itfs.
Proof.
  intros Hlen. destruct resource_itfs as [|r [|r' rest]].
  - reflexivity.
  - unfold all_sub_itfs. simpl forallb. rewrite andb_true_r.
    destruct self_itfs as [|self_itf self_itfs]; [reflexivity|].
    apply (check_res_last_interface is_sub_itf self_itf self_itfs [] r).
  - simpl in Hlen. lia.
Qed.

(** What [check_res] answers in every case: true for a resource without
    interface, and otherwise the test of the last interface of the resource
    against every interface of the port; the other interfaces of the
    resource do not count. *)
Theorem check_res_characterised (self_itfs resource_itfs : list Interface) :
  check_res is_sub_itf self_itfs resource_itfs
  = match rev resource_itfs with
    | [] => true
    | last_itf :: _ => forallb (is_sub_itf last_itf) self_itfs
    end.
Proof.
  induction resource_itfs as [|last_itf rest _] using rev_ind.
  - reflexivity.
  - rewrite rev_app_distr. cbn [rev app].
    destruct self_itfs as [|self_itf self_itfs].
    + unfold check_res. generalize (rest ++ [last_itf]) as itfs.
      intros itfs. induction itfs as [|r itfs IH]; [reflexivity | exact IH].
    + apply check_res_last_interface.
Qed.


Lemma map_each_length {A B : Type} (body : A -> M B) (xs : list A)
    (ys : list B) (s s' : store) :
  map_each xs body s = (Ok ys, s') -> length ys = length xs.
Proof.
  revert ys s s'. induction xs as [|x xs IH]; intros ys s s'; simpl.
  - unfold ret. intros [= <- _]. reflexivity.
  - unfold bind at 1. destruct (body x s) as [[y|e] s1]; [|discriminate].
    unfold bind at 1.
    destruct (map_each xs body s1) as [[ys'|e] s2] eqn:Hrest; [|discriminate].
    unfold ret. intros [= <- _]. simpl. f_equal. exact (IH ys' s1 s2 Hrest).
Qed.

(** Without execution and result policy, a call through the synthesized
    proxy that returns gives a plain list, never a single result; without
    selection policy either, the list has one result per candidate. *)
Theorem method_proxy_default_returns_list (depth : nat) (self : oid)
    (r_name : string) (proxies : value) (selectpolicy : option oid)
    (proxy_instance : value) (args : list value) (kwargs : dict value)
    (result : value) (s s' : store) :
  method_proxy shuffle choice depth self r_name proxies selectpolicy
    None None proxy_instance args kwargs s = (Ok result, s') ->
  exists results : list value,
    result = VList results
    /\ (forall xs, selectpolicy = None -> proxies = VPolicyResultSet xs ->
        length results = length xs).
Proof.
  destruct depth as [|depth]; [discriminate|].
  cbn [method_proxy]. unfold bind at 1.
  destruct (match selectpolicy with
            | Some p => _
            | None => ret proxies
            end s) as [[proxies_to_run|e] s1] eqn:Hselect; [|discriminate].
  unfold bind at 1. unfold bind at 1.
  destruct (iterate proxies_to_run s1) as [[to_run|e] s2] eqn:Hiter;
    [|discriminate].
  unfold bind at 1.
  destruct (map_each to_run _ s2) as [[results|e] s3] eqn:Hmap;
    [|discriminate].
  unfold ret. intros [= <- _]. exists results. split; [reflexivity|].
  intros xs -> ->. unfold ret in Hselect. injection Hselect as <- <-.
  simpl in Hiter. unfold ret in Hiter. injection Hiter as <- <-.
  exact (map_each_length _ _ _ _ _ Hmap).
Qed.

(** With a selection policy that picks one candidate ([FirstPolicy] acting
    on [proxies]) and no execution policy, the call iterates over the
    picked candidate itself: it raises [TypeError] when that candidate is
    not a sequence. *)
Theorem method_proxy_single_selection (depth : nat) (self p : oid)
    (r_name : string) (x : value) (xs : list value)
    (respolicy : option oid) (proxy_instance : value) (args : list value)
    (kwargs : dict value) (s : store) :
  heap s !! p = Some (OPolicy "proxies" Policy.First) ->
  (forall s0, iterate x s0 = (Raise TypeError, s0)) ->
  fst (method_proxy shuffle choice (S depth) self r_name
         (VPolicyResultSet (x :: xs)) (Some p) None respolicy
         proxy_instance args kwargs s)
  = Raise TypeError.
Proof.
  intros Hp Hiter. cbn [method_proxy]. unfold bind at 1.
  unfold call_policy. rewrite Hp. simpl.
  unfold bind at 1. unfold bind at 1. rewrite Hiter. reflexivity.
Qed.

End PortLaws.

Section StoreLaws.

Variable is_sub_itf : Interface -> Interface -> bool.

(** Binding a value that is not a resource under a name that holds no
    resource is the binding of the component and nothing more: no proxy is
    renewed, and every cached proxy of the store stays as it was. *)
Theorem set_port_non_resource (self : oid) (port : value) (name : string)
    (c : component) (s : store) :
  heap s !! self = Some (OComponent c) ->
  is_resource s port = false ->
  is_resource s (bound_under s self name) = false ->
  Port_set_port is_sub_itf self port name s
  = Component_set_port self port name s
  /\ fst (Port_set_port is_sub_itf self port name s)
     = Ok (name, bound_under s self name)
  /\ forall o,
       proxy_of (snd (Port_set_port is_sub_itf self port name s)) o
       = proxy_of s o.
Proof.
  intros Hself Hport Hold.
  destruct (Component_set_port_keeps self port name c s Hself)
    as (s1 & Hset1 & Hkeep & _).
  destruct (Port_set_port_unfold is_sub_itf self port name c s Hself
              (or_introl Hport)) as (s' & Hset & Heq).
  rewrite Hset1 in Hset. injection Hset as <-.
  rewrite Hold, Hport in Heq. cbn [orb] in Heq.
  rewrite Heq, Hset1. split; [reflexivity|]. split; [reflexivity|].
  intros o. apply Hkeep.
Qed.

(** [set_port], when it returns, returns the name with the value that was
    bound under it before the call, [None] when there was none. *)
Theorem set_port_returns_previous (self : oid) (port : value)
    (name : string) (result : string * value) (s s' : store) :
  Port_set_port is_sub_itf self port name s = (Ok result, s') ->
  result = (name, bound_under s self name).
Proof.
  intros Hreturn.
  destruct (Port_set_port_cases is_sub_itf self port name s)
    as (r & s1 & Hset & _ & Hcases).
  rewrite Hset in Hreturn. injection Hreturn as -> ->.
  destruct Hcases as [[Hr _]|[Hr|Hr]]; try discriminate.
  injection Hr as ->. reflexivity.
Qed.

(** [set_port] of a resource that [check_res] lets through never returns:
    it installs the binding, as [Component.set_port] does, and then raises
    [AttributeError] out of [_renew_proxy].  The binding stays. *)
Theorem set_port_of_resource_binds_and_raises (self o : oid)
    (name : string) (c r : component) (s : store) :
  heap s !! self = Some (OComponent c) ->
  heap s !! o = Some (OComponent r) ->
  subclass_of_Resource (cls r) = true ->
  check_res is_sub_itf (itfs c) (itfs r) = true ->
  Port_set_port is_sub_itf self (VObj o) name s
  = (Raise AttributeError, snd (Component_set_port self (VObj o) name s))
  /\ bound_under (snd (Port_set_port is_sub_itf self (VObj o) name s))
       self name
     = VObj o.
Proof.
  intros Hself Ho Hres Hcheck.
  assert (Hport : is_resource s (VObj o) = true)
    by (cbn [is_resource]; rewrite Ho; exact Hres).
  assert (Hguard : Port_check_res is_sub_itf self (VObj o) s = (Ok true, s)).
  { unfold Port_check_res, bind, get_component, ret.
    rewrite Ho, Hself, Hcheck. reflexivity. }
  destruct (Component_set_port_keeps self (VObj o) name c s Hself)
    as (s1 & Hset1 & _ & Hports & _).
  destruct (Port_set_port_unfold is_sub_itf self (VObj o) name c s Hself
              (or_intror Hguard)) as (s' & Hset & Heq).
  rewrite Hset1 in Hset. injection Hset as <-.
  rewrite Hport, orb_true_r in Heq.
  rewrite Heq, Hset1. cbn [snd]. split; [reflexivity|].
  unfold bound_under. unfold ports_of in Hports.
  destruct (heap s1 !! self) as [[c1|n p]|]; try discriminate.
  injection Hports as ->. rewrite dict_get_set_eq. reflexivity.
Qed.

Lemma Port_proxy_reads (self : oid) (s : store) :
  snd (Port_proxy self s) = s.
Proof.
  unfold Port_proxy, Resource_proxy. unfold bind at 1.
  unfold get_component at 1.
  destruct (heap s !! self) as [[c|n p]|] eqn:Hself; try reflexivity.
  destruct (subclass_of_Port (cls c)); [|reflexivity].
  unfold bind at 1.
  destruct (_proxy c);
    try (unfold ret at 1; unfold bind, get_component; rewrite Hself;
         reflexivity).
  rewrite Port__renew_proxy_raises. reflexivity.
Qed.

Lemma Port_multiple_setter_keeps (self : oid) (value : bool) (s : store) :
  exists result s',
    Port_multiple_setter self value s = (result, s')
    /\ forall o,
         class_of s' o = class_of s o /\ proxy_of s' o = proxy_of s o.
Proof.
  unfold Port_multiple_setter. unfold bind at 1. unfold get_component at 1.
  destruct (heap s !! self) as [[c|n p]|] eqn:Hself;
    try (eexists; exists s; split; [reflexivity | split; reflexivity]).
  destruct (negb (Bool.eqb value (_multiple c)));
    [|eexists; exists s; split; [reflexivity | split; reflexivity]].
  unfold bind at 1. unfold modify_component, bind at 1.
  unfold get_component at 1. rewrite Hself. unfold put_component at 1.
  rewrite Port__renew_proxy_raises.
  eexists. eexists. split; [reflexivity|].
  apply (put_component_keeps self c
           (with_multiple c (negb (_multiple c))) s Hself); reflexivity.
Qed.

Lemma Port_step_keeps (s : store) (call : Port_call) (o : oid) :
  class_of (Port_step is_sub_itf s call) o = class_of s o
  /\ proxy_of (Port_step is_sub_itf s call) o = proxy_of s o.
Proof.
  destruct call as [self port name|self|self value|self value|self];
    cbn [Port_step].
  - destruct (Port_set_port_cases is_sub_itf self port name s)
      as (result & s' & -> & Hkeep & _).
    apply Hkeep.
  - rewrite Port_proxy_reads. split; reflexivity.
  - destruct (Port_multiple_setter_keeps self value s)
      as (result & s' & -> & Hkeep).
    apply Hkeep.
  - split; reflexivity.
  - rewrite Port__renew_proxy_raises. split; reflexivity.
Qed.

(** No call on a port ever makes a proxy.  Through any sequence of
    [set_port], [proxy], [multiple], [itfs] and [_renew_proxy] calls,
    returning or raising, the [_proxy] of every object of the store stays
    what it was; a port whose [_proxy] is [None], as [Port.__init__]
    leaves it, still raises [AttributeError] when its [proxy] is read
    after the calls. *)
Theorem Port_run_makes_no_proxy (calls : list Port_call) (s : store) :
  (forall o, proxy_of (Port_run is_sub_itf calls s) o = proxy_of s o)
  /\ (forall (self : oid) (c : component),
        heap s !! self = Some (OComponent c) ->
        cls c = Port ->
        _proxy c = VNone ->
        Port_proxy self (Port_run is_sub_itf calls s)
        = (Raise AttributeError, Port_run is_sub_itf calls s)).
Proof.
  assert (Hkeep : forall o,
            class_of (Port_run is_sub_itf calls s) o = class_of s o
            /\ proxy_of (Port_run is_sub_itf calls s) o = proxy_of s o).
  { unfold Port_run. revert s.
    induction calls as [|call calls IH]; intros s o; [split; reflexivity|].
    cbn [fold_left].
    destruct (IH (Port_step is_sub_itf s call) o) as [-> ->].
    apply Port_step_keeps. }
  split; [intros o; apply Hkeep|].
  intros self c Hself Hcls Hproxy.
  destruct (Hkeep self) as [Hclass Hprox].
  unfold class_of, proxy_of in Hclass, Hprox. rewrite Hself in Hclass, Hprox.
  unfold Port_proxy, Resource_proxy. unfold bind at 1.
  unfold get_component at 1.
  destruct (heap (Port_run is_sub_itf calls s) !! self) as [[c'|n p]|];
    try discriminate.
  injection Hclass as Hclass. injection Hprox as Hprox.
  rewrite Hclass, Hcls, Hprox, Hproxy. cbn [subclass_of_Port].
  unfold bind at 1. rewrite Port__renew_proxy_raises. reflexivity.
Qed.

End StoreLaws.

(** ** The proxy set *)

Module ProxySetLaws.

Lemma names_by_proxy_get_In (d : list (value * string)) (p : value)
    (name : string) :
  List.NoDup (map (fun e => value_id (fst e)) d) ->
  List.Forall (fun e => value_id (fst e) <> None) d ->
  In (p, name) d ->
  exists o, value_id p = Some o /\ names_by_proxy_get d o = Some name.
Proof.
  induction d as [|[p0 n0] d IH]; intros Hnodup Hids Hin; [contradiction|].
  cbn [map fst] in Hnodup. apply NoDup_cons_iff in Hnodup.
  destruct Hnodup as [Hfresh Hnodup].
  apply Forall_cons_iff in Hids. destruct Hids as [Ho0 Hids].
  cbn [fst] in Ho0.
  destruct (value_id p0) as [o0|] eqn:Hp0; [|congruence].
  destruct Hin as [[= -> ->]|Hin].
  - exists o0. split; [exact Hp0|]. cbn [names_by_proxy_get].
    rewrite Hp0, Nat.eqb_refl. reflexivity.
  - destruct (IH Hnodup Hids Hin) as (o & Ho & Hget).
    exists o. split; [exact Ho|]. cbn [names_by_proxy_get]. rewrite Hp0.
    destruct (Nat.eqb_spec o0 o) as [->|Hne]; [|exact Hget].
    exfalso. apply Hfresh. rewrite <- Ho.
    apply (in_map (fun e => value_id (fst e)) d (p, name) Hin).
Qed.

(** [get_resource_name] answers, for a proxy that is a key of
    [_resource_names_by_proxy], the name stored under it; the keys are
    distinct objects, as the keys of a [dict] are. *)
Theorem ProxySet_get_resource_name_of_key (elts : list value) (port : oid)
    (resources : dict value) (d : list (value * string)) (proxy : value)
    (name : string) :
  List.NoDup (map (fun e => value_id (fst e)) d) ->
  List.Forall (fun e => value_id (fst e) <> None) d ->
  In (proxy, name) d ->
  ProxySet_get_resource_name (VProxySet elts port resources d) proxy
  = Ok name.
Proof.
  intros Hnodup Hids Hin.
  destruct (names_by_proxy_get_In d proxy name Hnodup Hids Hin)
    as (o & Ho & Hget).
  cbn [ProxySet_get_resource_name]. rewrite Ho, Hget. reflexivity.
Qed.

(** Looking up a value that is not an element of the set raises
    [KeyError]. *)
Theorem ProxySet_get_resource_name_unknown (elts : list value) (port : oid)
    (resources : dict value) (d : list (value * string)) (proxy : value) :
  (forall p name, In (p, name) d -> value_id p <> value_id proxy) ->
  ProxySet_get_resource_name (VProxySet elts port resources d) proxy
  = Raise KeyError.
Proof.
  intros Hnew. cbn [ProxySet_get_resource_name].
  destruct (value_id proxy) as [o|] eqn:Ho; [|reflexivity].
  enough (Hget : names_by_proxy_get d o = None) by (rewrite Hget; reflexivity).
  induction d as [|[p0 n0] d IH]; [reflexivity|].
  cbn [names_by_proxy_get].
  assert (Hrest : forall p name, In (p, name) d -> value_id p <> Some o).
  { intros p name Hin. apply (Hnew p name). right. exact Hin. }
  specialize (Hnew p0 n0 (or_introl eq_refl)).
  destruct (value_id p0) as [o0|]; [|exact (IH Hrest)].
  destruct (Nat.eqb_spec o0 o) as [->|Hne]; [congruence | exact (IH Hrest)].
Qed.

End ProxySetLaws.

(** ** The implementation controller *)

Module ImplLaws.
Import Impl.

Lemma prefix_app (prefix rest : string) :
  String.prefix prefix (prefix ++ rest)%string = true.
Proof.
  induction prefix as [|a prefix IH]; simpl.
  - destruct rest; reflexivity.
  - destruct (ascii_dec a a) as [_|Hne]; [exact IH | contradiction].
Qed.

Lemma substring_all (s : string) : String.substring 0 (String.length s) s = s.
Proof. induction s as [|a s IH]; simpl; [reflexivity | rewrite IH; reflexivity]. Qed.

Lemma substring_app (prefix rest : string) :
  String.substring (String.length prefix)
    (String.length (prefix ++ rest)%string - String.length prefix)
    (prefix ++ rest)%string
  = rest.
Proof.
  induction prefix as [|a prefix IH].
  - simpl String.length. rewrite Nat.sub_0_r. apply substring_all.
  - cbn [String.length String.append String.substring Nat.sub]. exact IH.
Qed.

(** The name of an accessor that starts with the prefix is what follows
    the prefix, less one leading underscore: [get_x] and [getx] both give
    [x], [get__x] gives [_x], and [get] alone gives the empty name. *)
Theorem accessor_name_of_prefixed (prefix rest : string) :
  _accessor_name (prefix ++ rest)%string prefix
  = match rest with
    | String "_"%char name => name
    | _ => rest
    end.
Proof.
  unfold _accessor_name. rewrite prefix_app, substring_app. reflexivity.
Qed.

Section Controller.

Variable lookup : string -> res pyvalue.
Variable new : string -> dict pyvalue -> res pyvalue.

(** [renew_impl] with a [cls] that is not a class and does not resolve to
    one raises, and leaves the class and the implementation of the
    controller as they were.  The default [cls=None] is such a value: it
    raises [TypeError]. *)
Theorem renew_impl_without_class (self : ImplController) (cls : pyvalue)
    (params : dict pyvalue) :
  (forall k, resolve lookup cls <> Ok (PClass k)) ->
  (exists e, renew_impl lookup new self cls params = (Raise e, self))
  /\ (cls = PNone ->
      renew_impl lookup new self cls params = (Raise TypeError, self)).
Proof.
  intros Hcls. split.
  - unfold renew_impl, cls_setter.
    destruct (resolve lookup cls) as [[| |k|]|e] eqn:Hresolve;
      try (eexists; reflexivity).
    exfalso. exact (Hcls k eq_refl).
  - intros ->. reflexivity.
Qed.

(** When the class is accepted and its construction raises, [renew_impl]
    raises the same error and the controller is left with the new class
    and no implementation: the previous implementation is gone. *)
Theorem renew_impl_failed_construction (self : ImplController)
    (cls : pyvalue) (params : dict pyvalue) (k : string) (e : exn) :
  resolve lookup cls = Ok (PClass k) ->
  new k params = Raise e ->
  renew_impl lookup new self cls params
  = (Raise e, mkImplController k PNone).
Proof.
  intros Hcls Hnew. unfold renew_impl, cls_setter. rewrite Hcls.
  cbn [_cls]. rewrite Hnew. reflexivity.
Qed.

(** When the construction returns, [renew_impl] returns the new object,
    which becomes the implementation; the class of the controller is then
    the class of that object, whatever class was asked for. *)
Theorem renew_impl_constructed (self : ImplController) (cls : pyvalue)
    (params : dict pyvalue) (k : string) (result : pyvalue) :
  resolve lookup cls = Ok (PClass k) ->
  new k params = Ok result ->
  renew_impl lookup new self cls params
  = (Ok result, mkImplController (class_name result) result).
Proof.
  intros Hcls Hnew. unfold renew_impl, cls_setter. rewrite Hcls.
  cbn [_cls]. rewrite Hnew. reflexivity.
Qed.

Lemma cls_setter_consistent (self : ImplController) (value : pyvalue) :
  consistent self -> consistent (snd (cls_setter lookup self value)).
Proof.
  intros Hself. unfold cls_setter.
  destruct (resolve lookup value) as [[| |k|]|e]; try exact Hself.
  left. reflexivity.
Qed.

Lemma impl_setter_consistent (self : ImplController) (value : pyvalue) :
  consistent (snd (impl_setter lookup self value)).
Proof. right. reflexivity. Qed.

Lemma renew_impl_consistent (self : ImplController) (cls : pyvalue)
    (params : dict pyvalue) :
  consistent self -> consistent (snd (renew_impl lookup new self cls params)).
Proof.
  intros Hself. unfold renew_impl.
  pose proof (cls_setter_consistent self cls Hself) as Hcls.
  destruct (cls_setter lookup self cls) as [[[]|e] self1]; [|exact Hcls].
  cbn [snd] in Hcls.
  destruct (new (_cls self1) params) as [result|e]; [|exact Hcls].
  right. reflexivity.
Qed.

(** Whatever is done to a controller through the [cls] setter, the [impl]
    setter and [renew_impl], and whether the calls return or raise, its
    implementation stays either [None] or an instance of its class. *)
Theorem ImplController_consistent (ops : list operation)
    (self : ImplController) :
  consistent self -> consistent (run lookup new ops self).
Proof.
  unfold run. revert self.
  induction ops as [|op ops IH]; intros self Hself; [exact Hself|].
  cbn [fold_left]. apply IH. destruct op as [value|value|cls params].
  - apply cls_setter_consistent. exact Hself.
  - apply impl_setter_consistent.
  - apply renew_impl_consistent. exact Hself.
Qed.

End Controller.

End ImplLaws.

(** ** The laws at work *)

Module LawsAtWork.
Import Scenario.

Lemma RoundaboutPolicy_cursor_witness :
  Policy.RoundaboutPolicy_call (Policy.mkRoundaboutPolicy 5)
    (VPolicyResultSet [VInt 1; VInt 2])
  = (Raise IndexError, Policy.mkRoundaboutPolicy 0).
Proof.
  apply (proj2 (RoundaboutLaws.RoundaboutPolicy_cursor
                  (Policy.mkRoundaboutPolicy 5) (VInt 1) [VInt 2])).
  left. vm_compute. discriminate.
Defined.

Lemma all_sub_itfs_check_res_witness :
  all_sub_itfs same_class [itf "A"] [itf "A"; itf "A"] = true
  /\ check_res same_class [itf "A"] [itf "A"; itf "A"] = true.
Proof.
  split; [reflexivity|].
  apply (all_sub_itfs_check_res same_class [itf "A"] [itf "A"; itf "A"]).
  reflexivity.
Defined.

Lemma check_res_single_interface_witness :
  (length [itf "B"] <= 1)%nat
  /\ check_res same_class [itf "A"; itf "B"] [itf "B"]
     = all_sub_itfs same_class [itf "A"; itf "B"] [itf "B"].
Proof.
  split; [simpl; lia|].
  apply (check_res_single_interface same_class [itf "A"; itf "B"] [itf "B"]).
  simpl. lia.
Defined.


Lemma method_proxy_default_returns_list_witness :
  let proxies :=
    VPolicyResultSet
      [VBackend 1%nat [("m", VInt 1)]; VBackend 3%nat [("m", VInt 2)]] in
  method_proxy no_shuffle first_choice 3 0%nat "m" proxies None None None
    VNone [] [] empty_store
  = (Ok (VList [VInt 1; VInt 2]), empty_store)
  /\ exists results : list value,
       VList [VInt 1; VInt 2] = VList results
       /\ (forall xs, @None oid = None -> proxies = VPolicyResultSet xs ->
           length results = length xs).
Proof.
  cbv zeta. split; [vm_compute; reflexivity|].
  apply (method_proxy_default_returns_list no_shuffle first_choice 3 0%nat
           "m" _ None VNone [] [] _ empty_store empty_store).
  vm_compute. reflexivity.
Defined.

Lemma method_proxy_single_selection_witness :
  let s := snd (policy_init "proxies" Policy.First empty_store) in
  let x := VBackend 1%nat [("m", VInt 1)] in
  let y := VBackend 3%nat [("m", VInt 2)] in
  heap s !! 0%nat = Some (OPolicy "proxies" Policy.First)
  /\ fst (method_proxy no_shuffle first_choice 3 5%nat "m"
            (VPolicyResultSet [x; y]) (Some 0%nat) None None VNone [] [] s)
     = Raise TypeError.
Proof.
  cbv zeta. split; [vm_compute; reflexivity|].
  apply (method_proxy_single_selection no_shuffle first_choice 2 5%nat
           0%nat "m" (VBackend 1%nat [("m", VInt 1)])).
  - vm_compute. reflexivity.
  - intros s0. reflexivity.
Defined.

Lemma set_port_non_resource_witness :
  let s := snd (port_with_child empty_store) in
  is_resource s (VObj 2%nat) = false
  /\ is_resource s (bound_under s 0%nat "child") = false
  /\ Port_set_port same_class 0%nat (VObj 2%nat) "other" s
     = Component_set_port 0%nat (VObj 2%nat) "other" s
  /\ ports_of (snd (Port_set_port same_class 0%nat (VObj 2%nat) "other" s))
       0%nat
     = Some [("child", VObj 1%nat); ("other", VObj 2%nat)]
  /\ proxy_of (snd (Port_set_port same_class 0%nat (VObj 2%nat) "other" s))
       0%nat
     = proxy_of s 0%nat.
Proof.
  cbv zeta. split; [vm_compute; reflexivity|].
  split; [vm_compute; reflexivity|].
  match goal with
  | |- Port_set_port _ _ _ _ ?s = _ /\ _ =>
      destruct (set_port_non_resource same_class 0%nat (VObj 2%nat) "other"
                  (mkComponent Port [("child", VObj 1%nat)] [itf "A"] []
                     VNone false 0 maxsize NoPolicy NoPolicy NoPolicy) s)
        as (Hsame & _ & Hproxies)
  end.
  - vm_compute. reflexivity.
  - vm_compute. reflexivity.
  - vm_compute. reflexivity.
  - split; [exact Hsame|]. split; [vm_compute; reflexivity|].
    apply Hproxies.
Defined.

Lemma set_port_returns_previous_witness :
  let s := snd (port_with_child empty_store) in
  exists s',
    Port_set_port same_class 0%nat (VObj 2%nat) "child" s
    = (Ok ("child", VObj 1%nat), s').
Proof.
  cbv zeta.
  destruct (Port_set_port same_class 0%nat (VObj 2%nat) "child"
              (snd (port_with_child empty_store)))
    as [[result|e] s'] eqn:Hset.
  - exists s'.
    pose proof (set_port_returns_previous same_class 0%nat (VObj 2%nat)
                  "child" result _ s' Hset) as Hresult.
    vm_compute in Hresult. rewrite Hresult. reflexivity.
  - vm_compute in Hset. discriminate.
Defined.

Lemma set_port_of_resource_binds_and_raises_witness :
  let s := snd (default_port_and_resource empty_store) in
  fst (Port_set_port same_class 0%nat (VObj 2%nat) "r" s)
  = Raise AttributeError
  /\ bound_under (snd (Port_set_port same_class 0%nat (VObj 2%nat) "r" s))
       0%nat "r"
     = VObj 2%nat.
Proof.
  cbv zeta.
  destruct (set_port_of_resource_binds_and_raises same_class 0%nat 2%nat "r"
              (mkComponent Port [] [itf "A"] [] VNone true 0 maxsize
                 NoPolicy NoPolicy NoPolicy)
              (mkComponent Resource [] [itf "A"] []
                 (VBackend 1%nat [("m", VInt 1)]) true 0 maxsize
                 NoPolicy NoPolicy NoPolicy)
              (snd (default_port_and_resource empty_store)))
    as [Hraise Hbound]; try (vm_compute; reflexivity).
  split; [rewrite Hraise; reflexivity | exact Hbound].
Defined.

Lemma Port_run_makes_no_proxy_witness :
  let s := snd (default_port_and_resource empty_store) in
  let calls :=
    [call_proxy 0%nat; call_set_port 0%nat (VObj 2%nat) "r";
     call_multiple 0%nat false; call_itfs 0%nat [itf "A"];
     call__renew_proxy 0%nat] in
  proxy_of (Port_run same_class calls s) 0%nat = Some VNone
  /\ fst (Port_proxy 0%nat (Port_run same_class calls s))
     = Raise AttributeError.
Proof.
  cbv zeta.
  match goal with
  | |- proxy_of (Port_run _ ?calls ?s) _ = _ /\ _ =>
      destruct (Port_run_makes_no_proxy same_class calls s)
        as [Hproxies Hraise]
  end.
  split.
  - rewrite Hproxies. vm_compute. reflexivity.
  - rewrite (Hraise 0%nat
               (mkComponent Port [] [itf "A"] [] VNone true 0 maxsize
                  NoPolicy NoPolicy NoPolicy));
      try reflexivity; vm_compute; reflexivity.
Defined.

Lemma ProxySet_get_resource_name_of_key_witness :
  let d :=
    [(VProxy 5%nat (VTuple [VInt 1]) [], "r1");
     (VProxy 6%nat (VTuple [VInt 2]) [], "r2")] in
  ProxySet_get_resource_name (VProxySet (map fst d) 0%nat [] d)
    (VProxy 6%nat (VTuple [VInt 2]) [])
  = Ok "r2".
Proof.
  cbv zeta.
  apply (ProxySetLaws.ProxySet_get_resource_name_of_key).
  - cbn [map fst value_id]. repeat constructor; simpl; intuition congruence.
  - repeat constructor; discriminate.
  - right. left. reflexivity.
Defined.

Lemma ProxySet_get_resource_name_unknown_witness :
  let d := [(VProxy 5%nat (VTuple [VInt 1]) [], "r")] in
  ProxySet_get_resource_name (VProxySet (map fst d) 0%nat [] d)
    (VProxy 6%nat (VTuple [VInt 1]) [])
  = Raise KeyError.
Proof.
  cbv zeta.
  apply (ProxySetLaws.ProxySet_get_resource_name_unknown).
  intros p name [[= <- <-]|[]]. discriminate.
Defined.

Lemma renew_impl_without_class_witness :
  let lookup := fun _ : string => Ok (Impl.PStr "found") in
  let new := fun k params => Ok (Impl.PObject k params) in
  let self := Impl.mkImplController "A" (Impl.PObject "A" []) in
  Impl.renew_impl lookup new self Impl.PNone [] = (Raise TypeError, self)
  /\ exists e,
       Impl.renew_impl lookup new self (Impl.PStr "path.to.A") []
       = (Raise e, self).
Proof.
  cbv zeta. split.
  - refine (proj2 (ImplLaws.renew_impl_without_class _ _ _ Impl.PNone [] _)
              eq_refl).
    intros k. discriminate.
  - refine (proj1 (ImplLaws.renew_impl_without_class _ _ _
                     (Impl.PStr "path.to.A") [] _)).
    intros k. discriminate.
Defined.

Lemma renew_impl_failed_construction_witness :
  let lookup := fun _ : string => Ok (Impl.PClass "B") in
  let new := fun (k : string) (params : dict Impl.pyvalue) =>
               @Raise Impl.pyvalue TypeError in
  Impl.renew_impl lookup new
    (Impl.mkImplController "A" (Impl.PObject "A" [])) (Impl.PStr "path.to.B")
    []
  = (Raise TypeError, Impl.mkImplController "B" Impl.PNone).
Proof.
  cbv zeta.
  apply (ImplLaws.renew_impl_failed_construction); reflexivity.
Defined.

Lemma renew_impl_constructed_witness :
  let lookup := fun _ : string => Ok (Impl.PClass "B") in
  let new := fun (k : string) (params : dict Impl.pyvalue) =>
               Ok (Impl.PObject "C" params) in
  Impl.renew_impl lookup new
    (Impl.mkImplController "A" (Impl.PObject "A" [])) (Impl.PClass "B") []
  = (Ok (Impl.PObject "C" []),
     Impl.mkImplController "C" (Impl.PObject "C" [])).
Proof.
  cbv zeta.
  apply (ImplLaws.renew_impl_constructed _ _ _ _ _ "B"); reflexivity.
Defined.

Lemma ImplController_consistent_witness :
  let lookup := fun _ : string => Ok (Impl.PClass "B") in
  let new := fun (k : string) (params : dict Impl.pyvalue) =>
               if String.eqb k "B" then Raise TypeError
               else Ok (Impl.PObject k params) in
  Impl.consistent
    (Impl.run lookup new
       [Impl.RenewImpl (Impl.PClass "A") []; Impl.SetCls Impl.PNone;
        Impl.RenewImpl (Impl.PStr "path.to.B") []; Impl.SetImpl (Impl.PStr "x")]
       (Impl.mkImplController "A" Impl.PNone)).
Proof.
  cbv zeta. apply ImplLaws.ImplController_consistent. left. reflexivity.
Defined.

End LawsAtWork.
